(** * The autocal image processor: a shallow embedding and its properties

    The program is one Cloud Run function, [image_processor], triggered by a
    write to the [screenshots] collection.  It reads three string fields of
    the document snapshot, asks Gemini for a calendar entry and merges the
    answer into the [state] collection.

    Layout: Python values and exceptions; [str.format]; [datetime] and
    [isoformat]; the Firestore event messages and [MessageToDict]; the
    document store; the handler in a state-and-exception monad; then the
    lemmas and the properties of the handler and of its body. *)

From Stdlib Require Import ZArith String Ascii List Lia Floats.PrimFloat.
From stdpp Require Import base option list strings gmap.

#[local] Set Warnings "-register-all".
#[local] Open Scope string_scope.
#[local] Open Scope Z_scope.
#[local] Open Scope list_scope.

(* ===================================================================== *)
(** ** Python values *)
(* ===================================================================== *)

(** The Python objects the handler passes around: what [json.loads] and
    [MessageToDict] return.  A [dict] keeps insertion order and its keys are
    strings; lookup takes the first binding of a key. *)
Inductive pyvalue : Type :=
| PyNone
| PyBool (b : bool)
| PyInt (z : Z)
| PyFloat (f : float)
| PyStr (s : string)
| PyList (l : list pyvalue)
| PyDict (d : list (string * pyvalue)).

Abbreviation pydict := (list (string * pyvalue)).

Fixpoint assoc_get {A : Type} (k : string) (d : list (string * A)) : option A :=
  match d with
  | [] => None
  | (k', v) :: rest => if String.eqb k k' then Some v else assoc_get k rest
  end.

(** [d[k] = v] on an ordered dict: an existing key keeps its place. *)
Fixpoint assoc_set {A : Type} (k : string) (v : A) (d : list (string * A))
  : list (string * A) :=
  match d with
  | [] => [(k, v)]
  | (k', v') :: rest =>
      if String.eqb k k' then (k, v) :: rest else (k', v') :: assoc_set k v rest
  end.

(** [bool(v)]. *)
Definition truthy (v : pyvalue) : bool :=
  match v with
  | PyNone => false
  | PyBool b => b
  | PyInt z => negb (z =? 0)
  | PyFloat f => negb (PrimFloat.eqb f 0%float)
  | PyStr s => negb (String.eqb s EmptyString)
  | PyList l => match l with [] => false | _ :: _ => true end
  | PyDict d => match d with [] => false | _ :: _ => true end
  end.

(** [all(l)]. *)
Definition py_all (l : list pyvalue) : bool := forallb truthy l.

(** *** Exceptions *)

(** An exception is an instance of a class; [exc_mro] is the linearisation
    of that class, its own name first, so that [except C] matches when [C]
    occurs in it. *)
Record exception : Type := mkException {
  exc_mro : list string;
  exc_msg : string
}.

Definition isinstance (e : exception) (cls : string) : bool :=
  existsb (String.eqb cls) (exc_mro e).

Definition builtin_exception (cls : string) (msg : string) : exception :=
  {| exc_mro := [cls; "Exception"; "BaseException"; "object"]; exc_msg := msg |}.

Definition AttributeError := builtin_exception "AttributeError".
Definition TypeError := builtin_exception "TypeError".
Definition ValueError := builtin_exception "ValueError".
Definition KeyError : string -> exception :=
  fun msg => {| exc_mro := ["KeyError"; "LookupError"; "Exception"; "BaseException"; "object"];
                exc_msg := msg |}.

(** The class the handler names in its [except] clause. *)
Definition GoogleAPICallError_cls : string := "GoogleAPICallError".

(** The result of evaluating a Python expression or statement. *)
Inductive outcome (A : Type) : Type :=
| Returned (a : A)
| Raised (e : exception).
Arguments Returned {A} a.
Arguments Raised {A} e.

(** [v.get(k, default)]: defined on dicts; any other object has no
    attribute [get]. *)
Definition py_get (v : pyvalue) (k : string) (dflt : pyvalue) : outcome pyvalue :=
  match v with
  | PyDict d => Returned (default dflt (assoc_get k d))
  | _ => Raised (AttributeError "object has no attribute 'get'")
  end.

(** *** [str(int)] and the [%0wd] conversion *)

Definition digit_char (d : Z) : ascii := ascii_of_N (48 + Z.to_N d).

(** The decimal digits of [n >= 0], most significant first, in front of
    [acc]; one digit per unit of fuel. *)
Fixpoint decimal_digits (fuel : nat) (n : Z) (acc : string) : string :=
  match fuel with
  | O => acc
  | S fuel' =>
      let acc' := String (digit_char (n mod 10)) acc in
      if n / 10 =? 0 then acc' else decimal_digits fuel' (n / 10) acc'
  end.

(** A number has at most [log2 n + 1] decimal digits. *)
Definition str_nonneg (n : Z) : string :=
  decimal_digits (S (Z.to_nat (Z.log2 n))) n EmptyString.

Definition str_int (n : Z) : string :=
  if n <? 0 then String "-" (str_nonneg (- n)) else str_nonneg n.

Fixpoint zeros (k : nat) : string :=
  match k with O => EmptyString | S k' => String "0" (zeros k') end.

(** ["%0wd" % n]: the sign first, then zeros up to width [w]. *)
Definition format_0d (w : nat) (n : Z) : string :=
  if n <? 0
  then String "-" (zeros (w - 1 - String.length (str_nonneg (- n)))%nat +:+ str_nonneg (- n))
  else zeros (w - String.length (str_nonneg n))%nat +:+ str_nonneg n.

(* ===================================================================== *)
(** ** [str.format] *)
(* ===================================================================== *)

Definition is_digit (c : ascii) : bool :=
  (48 <=? N_of_ascii c)%N && (N_of_ascii c <=? 57)%N.

Fixpoint all_digits (s : string) : bool :=
  match s with
  | EmptyString => true
  | String c r => is_digit c && all_digits r
  end.

Definition digit_value (c : ascii) : Z := Z.of_N (N_of_ascii c) - 48.

(** The number a string of digits denotes, on top of [acc]. *)
Fixpoint digits_value (acc : Z) (s : string) : Z :=
  match s with
  | EmptyString => acc
  | String c r => digits_value (acc * 10 + digit_value c) r
  end.

(** A character that starts a conversion, a format spec, an attribute or an
    index inside a replacement field. *)
Definition is_field_syntax (c : ascii) : bool :=
  Ascii.eqb c "!" || Ascii.eqb c ":" || Ascii.eqb c "." || Ascii.eqb c "["
  || Ascii.eqb c "{".

Fixpoint has_field_syntax (s : string) : bool :=
  match s with
  | EmptyString => false
  | String c r => is_field_syntax c || has_field_syntax r
  end.

(** The value a replacement field named [name] stands for.  An empty or
    numeric name is positional, and the handler passes no positional
    argument; a name is looked up among the keyword arguments.  Fields with
    a conversion, a format spec or an attribute path are outside the
    fragment modelled here and are reported as a [ValueError]; the
    template of the handler has none. *)
Definition format_field_value (kwargs : list (string * string)) (name : string)
  : outcome string :=
  if has_field_syntax name then Raised (ValueError "replacement field outside the modelled fragment")
  else if all_digits name then
    Raised {| exc_mro := ["IndexError"; "LookupError"; "Exception"; "BaseException"; "object"];
              exc_msg := "Replacement index " +:+ str_int (digits_value 0 name)
                         +:+ " out of range for positional args tuple" |}
  else match assoc_get name kwargs with
       | Some v => Returned v
       | None => Raised (KeyError name)
       end.

Definition outcome_map {A B : Type} (f : A -> B) (o : outcome A) : outcome B :=
  match o with
  | Returned a => Returned (f a)
  | Raised e => Raised e
  end.

(** [template.format] applied to keyword arguments, all of them strings.
    [format_text] scans literal text, where a doubled brace stands for one
    brace; [format_field] reads a field name up to its closing brace. *)
Fixpoint format_text (kwargs : list (string * string)) (t : string) {struct t}
  : outcome string :=
  match t with
  | EmptyString => Returned EmptyString
  | String c r =>
      if Ascii.eqb c "{" then
        match r with
        | EmptyString => Raised (ValueError "Single '{' encountered in format string")
        | String c2 r2 =>
            if Ascii.eqb c2 "{"
            then outcome_map (String "{") (format_text kwargs r2)
            else format_field kwargs r EmptyString
        end
      else if Ascii.eqb c "}" then
        match r with
        | EmptyString => Raised (ValueError "Single '}' encountered in format string")
        | String c2 r2 =>
            if Ascii.eqb c2 "}"
            then outcome_map (String "}") (format_text kwargs r2)
            else Raised (ValueError "Single '}' encountered in format string")
        end
      else outcome_map (String c) (format_text kwargs r)
  end
with format_field (kwargs : list (string * string)) (t : string) (name : string)
  {struct t} : outcome string :=
  match t with
  | EmptyString => Raised (ValueError "expected '}' before end of string")
  | String c r =>
      if Ascii.eqb c "}" then
        match format_field_value kwargs name with
        | Returned v => outcome_map (String.append v) (format_text kwargs r)
        | Raised e => Raised e
        end
      else format_field kwargs r (name +:+ String c EmptyString)
  end.

Definition py_format (template : string) (kwargs : list (string * string))
  : outcome string :=
  format_text kwargs template.

(* ===================================================================== *)
(** ** [datetime] *)
(* ===================================================================== *)

(** A naive [datetime.datetime], as [datetime.datetime.now()] returns it. *)
Record datetime : Type := mkDatetime {
  year : Z; month : Z; day : Z;
  hour : Z; minute : Z; second : Z; microsecond : Z
}.

Definition is_leap (y : Z) : bool :=
  (y mod 4 =? 0) && (negb (y mod 100 =? 0) || (y mod 400 =? 0)).

Definition days_in_month (y m : Z) : Z :=
  if m =? 2 then (if is_leap y then 29 else 28)
  else if (m =? 4) || (m =? 6) || (m =? 9) || (m =? 11) then 30
  else 31.

(** The ranges the [datetime] constructor enforces. *)
Definition valid_datetime (d : datetime) : Prop :=
  1 <= year d <= 9999 /\ 1 <= month d <= 12 /\
  1 <= day d <= days_in_month (year d) (month d) /\
  0 <= hour d <= 23 /\ 0 <= minute d <= 59 /\ 0 <= second d <= 59 /\
  0 <= microsecond d <= 999999.

(** [d.isoformat()] with the default separator and [timespec='auto']: the
    microseconds are printed only when they are not zero. *)
Definition isoformat (d : datetime) : string :=
  format_0d 4 (year d) +:+ "-" +:+ format_0d 2 (month d) +:+ "-" +:+
  format_0d 2 (day d) +:+ "T" +:+
  format_0d 2 (hour d) +:+ ":" +:+ format_0d 2 (minute d) +:+ ":" +:+
  format_0d 2 (second d) +:+
  (if microsecond d =? 0 then EmptyString
   else "." +:+ format_0d 6 (microsecond d)).


(* ===================================================================== *)
(** ** ISO 8601 date and time representations *)
(* ===================================================================== *)

(** The recogniser follows the spec's words, "a syntactically valid ISO-8601
    timestamp": a calendar date and a time of day in the extended format,
    [YYYY-MM-DDThh:mm:ss], with an optional decimal fraction of the second
    and an optional zone designator ([Z] or a signed [hh:mm] offset). *)

(** Exactly [k] digits, read as a number on top of [acc]. *)
Fixpoint read_fixed (k : nat) (acc : Z) (s : string) : option (Z * string) :=
  match k with
  | O => Some (acc, s)
  | S k' =>
      match s with
      | EmptyString => None
      | String c r =>
          if is_digit c then read_fixed k' (acc * 10 + digit_value c) r else None
      end
  end.

Definition expect (c : ascii) (s : string) : option string :=
  match s with
  | EmptyString => None
  | String c' r => if Ascii.eqb c c' then Some r else None
  end.

Fixpoint skip_digits (s : string) : string :=
  match s with
  | EmptyString => s
  | String c r => if is_digit c then skip_digits r else s
  end.

(** An optional decimal sign followed by at least one digit. *)
Definition read_fraction (s : string) : option string :=
  match s with
  | EmptyString => Some s
  | String c r =>
      if Ascii.eqb c "." || Ascii.eqb c "," then
        match r with
        | EmptyString => None
        | String d r' => if is_digit d then Some (skip_digits r') else None
        end
      else Some s
  end.

Definition read_zone (s : string) : option string :=
  match s with
  | EmptyString => Some s
  | String c r =>
      if Ascii.eqb c "Z" then Some r
      else if Ascii.eqb c "+" || Ascii.eqb c "-" then
        '(h, r1) ← read_fixed 2 0 r;
        r2 ← expect ":" r1;
        '(m, r3) ← read_fixed 2 0 r2;
        if (h <=? 23) && (m <=? 59) then Some r3 else None
      else None
  end.

(** The fields of the representation, when [s] is one. *)
Definition iso8601_parse (s : string) : option (Z * Z * Z * (Z * Z * Z)) :=
  '(y, s) ← read_fixed 4 0 s;
  s ← expect "-" s;
  '(mo, s) ← read_fixed 2 0 s;
  s ← expect "-" s;
  '(d, s) ← read_fixed 2 0 s;
  s ← expect "T" s;
  '(h, s) ← read_fixed 2 0 s;
  s ← expect ":" s;
  '(mi, s) ← read_fixed 2 0 s;
  s ← expect ":" s;
  '(se, s) ← read_fixed 2 0 s;
  s ← read_fraction s;
  s ← read_zone s;
  if String.eqb s EmptyString
     && (1 <=? mo) && (mo <=? 12) && (1 <=? d) && (d <=? days_in_month y mo)
     && (h <=? 23) && (mi <=? 59) && (se <=? 60)
  then Some (y, mo, d, (h, mi, se))
  else None.

Definition is_iso8601 (s : string) : bool :=
  match iso8601_parse s with Some _ => true | None => false end.

(** [needle] occurs in [hay]. *)
Definition contains (hay needle : string) : Prop :=
  exists before after : string, hay = before +:+ needle +:+ after.


(* ===================================================================== *)
(** ** The Firestore event messages *)
(* ===================================================================== *)

(** [google.events.cloud.firestore]: a document snapshot is a name, a map
    from field names to typed values and two timestamps.  A timestamp is
    kept as its RFC 3339 text and a byte string as its base64 text, which is
    how the JSON rendering shows them. *)
Inductive Value : Type :=
| ValueNotSet
| NullValue
| BooleanValue (b : bool)
| IntegerValue (z : Z)
| DoubleValue (f : float)
| TimestampValue (rfc3339 : string)
| StringValue (s : string)
| BytesValue (base64 : string)
| ReferenceValue (path : string)
| GeoPointValue (latitude longitude : float)
| ArrayValue (values : list Value)
| MapValue (fields : list (string * Value)).

Record Document : Type := mkDocument {
  doc_name : string;
  doc_fields : list (string * Value);
  doc_create_time : option string;
  doc_update_time : option string
}.

Record DocumentEventData : Type := mkDocumentEventData {
  value : Document;
  old_value : Document;
  update_mask : list string
}.

Definition Document_empty : Document :=
  {| doc_name := EmptyString; doc_fields := [];
     doc_create_time := None; doc_update_time := None |}.

(** [firestore.DocumentEventData()]: the constructor without arguments
    gives a message with every field at its default. *)
Definition DocumentEventData_new : DocumentEventData :=
  {| value := Document_empty; old_value := Document_empty; update_mask := [] |}.

(** A double in the JSON rendering: the values that are not finite become
    strings. *)
Definition double_to_json (f : float) : pyvalue :=
  if PrimFloat.is_nan f then PyStr "NaN"
  else if PrimFloat.is_infinity f
       then (if PrimFloat.ltb f 0%float then PyStr "-Infinity" else PyStr "Infinity")
       else PyFloat f.

(** A double field is left out when it holds the default, positive zero;
    negative zero is printed. *)
Definition optional_double (k : string) (f : float) : pydict :=
  if PrimFloat.eqb f 0%float && negb (PrimFloat.get_sign f) then []
  else [(k, double_to_json f)].

(** The JSON rendering of a [Value]: a dict with one key, the name of the
    member of the oneof that is set; 64-bit integers are strings; repeated
    and map fields that are empty are left out. *)
Fixpoint Value_to_dict (v : Value) : pydict :=
  match v with
  | ValueNotSet => []
  | NullValue => [("nullValue", PyNone)]
  | BooleanValue b => [("booleanValue", PyBool b)]
  | IntegerValue z => [("integerValue", PyStr (str_int z))]
  | DoubleValue f => [("doubleValue", double_to_json f)]
  | TimestampValue t => [("timestampValue", PyStr t)]
  | StringValue s => [("stringValue", PyStr s)]
  | BytesValue b => [("bytesValue", PyStr b)]
  | ReferenceValue r => [("referenceValue", PyStr r)]
  | GeoPointValue la lo =>
      [("geoPointValue",
        PyDict (optional_double "latitude" la ++ optional_double "longitude" lo))]
  | ArrayValue vs =>
      [("arrayValue",
        PyDict (match vs with
                | [] => []
                | _ :: _ => [("values", PyList (map (fun x => PyDict (Value_to_dict x)) vs))]
                end))]
  | MapValue fs =>
      [("mapValue",
        PyDict (match fs with
                | [] => []
                | _ :: _ =>
                    [("fields",
                      PyDict (map (fun kv => (fst kv, PyDict (Value_to_dict (snd kv)))) fs))]
                end))]
  end.

Definition fields_to_dict (fs : list (string * Value)) : pydict :=
  map (fun kv => (fst kv, PyDict (Value_to_dict (snd kv)))) fs.

Definition optional_string (k : string) (o : option string) : pydict :=
  match o with Some t => [(k, PyStr t)] | None => [] end.

(** The JSON rendering of a document with the default options: fields at
    their default value are left out and names are in lowerCamelCase. *)
Definition Document_to_dict (d : Document) : pyvalue :=
  PyDict
    ((if String.eqb (doc_name d) EmptyString then [] else [("name", PyStr (doc_name d))])
     ++ (match doc_fields d with
         | [] => []
         | _ :: _ => [("fields", PyDict (fields_to_dict (doc_fields d)))]
         end)
     ++ optional_string "createTime" (doc_create_time d)
     ++ optional_string "updateTime" (doc_update_time d)).

(** The two faces of a message of [google.events.cloud.firestore]: the
    proto-plus object, which is what the constructor and attribute access
    such as [firestore_payload.value] give, and the protobuf message under
    it, its [_pb]. *)
Inductive message : Type :=
| ProtoPlus (d : Document)
| RawProtobuf (d : Document).

(** [json_format.MessageToDict(message)] starts by reading
    [message.DESCRIPTOR].  A protobuf message has it; a proto-plus object
    looks the name up among its fields and raises. *)
Definition MessageToDict (m : message) : outcome pyvalue :=
  match m with
  | RawProtobuf d => Returned (Document_to_dict d)
  | ProtoPlus _ => Raised (AttributeError "Unknown field for Document: DESCRIPTOR")
  end.

(** The event the functions framework hands to the handler. *)
Record CloudEvent : Type := mkCloudEvent {
  ce_source : string;
  ce_data : list Byte.byte
}.

(* ===================================================================== *)
(** ** The document store *)
(* ===================================================================== *)

(** A stored document is a map from field names to values. *)
Abbreviation stored_document := (gmap string pyvalue).

(** What [set(data, merge=True)] does to one field.  The update mask of a
    merge is made of the leaf paths of [data]: a dict that is not empty is
    merged key by key into the map stored under the field, and any other
    value replaces what was stored. *)
Fixpoint merge_value (old : option pyvalue) (new : pyvalue) {struct new} : pyvalue :=
  match new with
  | PyDict ((_ :: _) as kvs) =>
      let base := match old with Some (PyDict o) => o | _ => [] end in
      PyDict
        ((fix merge_keys (kvs : pydict) (acc : pydict) {struct kvs} : pydict :=
            match kvs with
            | [] => acc
            | (k, v) :: rest =>
                merge_keys rest (assoc_set k (merge_value (assoc_get k acc) v) acc)
            end) kvs base)
  | _ => new
  end.

Definition merge_fields (doc : stored_document) (data : pydict) : stored_document :=
  foldl (fun acc kv => <[fst kv := merge_value (acc !! fst kv) (snd kv)]> acc) doc data.

(** Without [merge] the document is replaced by [data]. *)
Definition replace_fields (data : pydict) : stored_document :=
  foldl (fun acc kv => <[fst kv := snd kv]> acc) ∅ data.

Record DocumentReference : Type := mkDocumentReference {
  ref_collection : string;
  ref_id : string
}.

Definition ref_key (r : DocumentReference) : string * string :=
  (ref_collection r, ref_id r).

Record SetCall : Type := mkSetCall {
  set_ref : DocumentReference;
  set_data : pydict;
  set_merge : bool
}.

Definition firestore_apply (c : SetCall) (db : gmap (string * string) stored_document)
  : gmap (string * string) stored_document :=
  let key := ref_key (set_ref c) in
  if set_merge c
  then <[key := merge_fields (default ∅ (db !! key)) (set_data c)]> db
  else <[key := replace_fields (set_data c)]> db.

(* ===================================================================== *)
(** ** The module: constants and clients *)
(* ===================================================================== *)

Definition dq : string := String (ascii_of_nat 34) EmptyString.
Definition nl : string := String (ascii_of_nat 10) EmptyString.
Definition quoted (s : string) : string := dq +:+ s +:+ dq.

Definition MODEL_ID : string := "gemini-2.0-flash-001".

(** [os.environ.get(name, default)] *)
Definition environ_get (environ : gmap string string) (name dflt : string) : string :=
  default dflt (environ !! name).

(** The module reads [LOCATION] once, when it is loaded; an empty value
    stands for the default region.  The read never gives [None], so the
    second test of the source, [LOCATION is None], is always false. *)
Definition LOCATION (environ : gmap string string) : string :=
  let LOCATION := environ_get environ "LOCATION" EmptyString in
  if String.eqb LOCATION EmptyString || false then "europe-west1" else LOCATION.

Record Client : Type := mkClient {
  vertexai : bool;
  location : string
}.

(** [genai.Client(vertexai=True, location=LOCATION)] *)
Definition client (environ : gmap string string) : Client :=
  {| vertexai := true; location := LOCATION environ |}.

Definition response_schema : pyvalue :=
  PyDict
    [("type", PyStr "OBJECT");
     ("properties",
      PyDict [("summary", PyDict [("type", PyStr "STRING")]);
              ("location", PyDict [("type", PyStr "STRING")]);
              ("description", PyDict [("type", PyStr "STRING")]);
              ("start", PyDict [("type", PyStr "STRING")]);
              ("end", PyDict [("type", PyStr "STRING")])]);
     ("required", PyList [PyStr "summary"; PyStr "description"; PyStr "start"; PyStr "end"])].

(** The prompt, line by line; [quoted s] is [s] between double quotes. *)
Definition PROMPT_TEMPLATE : string :=
  String.concat nl
    [" The current date and time is: {current_datetime}.";
     EmptyString;
     "Analyze the provided screenshot and extract the following information: ";
     EmptyString;
     "summary: A brief summary of the event.";
     "location: The location of the event.";
     "start time: The start date and time of the event in YYYY-MM-DDTHH:MM:SS format. Assume the event starts in the future.";
     "end time: The end date and time of the event in YYYY-MM-DDTHH:MM:SS format. Calculate this using the duration, if no duration is mentioned, assume the event is an hour long.";
     "Ensure the start and end objects include the correct timeZone based on the information in the screenshot.";
     "duration: The duration of the event in minutes. This could be also written as mins.Use this to calculate the end time if provided.";
     "Ensure the start and end objects include the correct timeZone based on the information in the screenshot.";
     "description: A short description of the event.";
     EmptyString;
     "The response should have the following schema:";
     EmptyString;
     "{{";
     "    " +:+ quoted "type" +:+ ": " +:+ quoted "OBJECT" +:+ ",";
     "    " +:+ quoted "properties" +:+ ": {{";
     "        " +:+ quoted "summary" +:+ ": {{" +:+ quoted "type" +:+ ": " +:+ quoted "STRING" +:+ "}},";
     "        " +:+ quoted "location" +:+ ": {{" +:+ quoted "type" +:+ ": " +:+ quoted "STRING" +:+ "}},";
     "        " +:+ quoted "description" +:+ ": {{" +:+ quoted "type" +:+ ": " +:+ quoted "STRING" +:+ "}},";
     "        " +:+ quoted "start" +:+ ": {{" +:+ quoted "type" +:+ ": " +:+ quoted "STRING" +:+ "}},";
     "        " +:+ quoted "end" +:+ ": {{" +:+ quoted "type" +:+ ": " +:+ quoted "STRING" +:+ "}}";
     "    }}";
     "}}";
     EmptyString;
     EmptyString].


(* ===================================================================== *)
(** ** The world around the handler and the handler's monad *)
(* ===================================================================== *)

Record Part : Type := mkPart {
  file_uri : pyvalue;
  mime_type : pyvalue
}.

Inductive content : Type :=
| ContentPart (p : Part)
| ContentText (text : string).

Record GenerateContentConfig : Type := mkGenerateContentConfig {
  response_mime_type : string;
  config_response_schema : pyvalue
}.

(** One call of [client.models.generate_content]. *)
Record GenerateContentCall : Type := mkGenerateContentCall {
  call_client : Client;
  call_model : string;
  call_contents : list content;
  call_config : GenerateContentConfig
}.

(** One piece of a printed line: literal text or a formatted object. *)
Inductive piece : Type :=
| Lit (text : string)
| FmtStr (s : string)
| FmtValue (v : pyvalue)
| FmtMessage (d : Document)
| FmtException (e : exception).

(** What the handler does not decide: the environment of the process, the
    wall clock, the answer of the model (the text of the response, or an
    exception), the JSON decoder, the id the store client draws for a
    document without one, and whether the document store accepts a
    write. *)
Record World : Type := mkWorld {
  environ : gmap string string;
  clock : datetime;
  generate_content : GenerateContentCall -> outcome string;
  json_loads : string -> outcome pyvalue;
  auto_id : string;
  firestore_fault : SetCall -> option exception
}.

(** What the handler changes: the lines printed, the calls made to the
    model, the writes sent to the store, and the store. *)
Record State : Type := mkState {
  stdout : list (list piece);
  model_calls : list GenerateContentCall;
  store_writes : list SetCall;
  store : gmap (string * string) stored_document
}.

Definition M (A : Type) : Type := State -> outcome A * State.

Definition ret {A : Type} (a : A) : M A := fun st => (Returned a, st).

Definition raise {A : Type} (e : exception) : M A := fun st => (Raised e, st).

Definition bind {A B : Type} (m : M A) (k : A -> M B) : M B :=
  fun st =>
    match m st with
    | (Returned a, st') => k a st'
    | (Raised e, st') => (Raised e, st')
    end.

Notation "x <- m ;; k" := (bind m (fun x => k))
  (at level 100, m at next level, right associativity).
Notation "m ;;; k" := (bind m (fun _ => k))
  (at level 100, right associativity).

Definition lift {A : Type} (o : outcome A) : M A := fun st => (o, st).

(** [try: body except cls as e: handler e] *)
Definition try_except {A : Type} (body : M A) (cls : string) (handler : exception -> M A)
  : M A :=
  fun st =>
    match body st with
    | (Returned a, st') => (Returned a, st')
    | (Raised e, st') => if isinstance e cls then handler e st' else (Raised e, st')
    end.

(** The four ways the handler changes the state. *)
Definition emit (lines : list (list piece)) (st : State) : State :=
  {| stdout := stdout st ++ lines; model_calls := model_calls st;
     store_writes := store_writes st; store := store st |}.

Definition record_call (c : GenerateContentCall) (st : State) : State :=
  {| stdout := stdout st; model_calls := model_calls st ++ [c];
     store_writes := store_writes st; store := store st |}.

Definition record_write (c : SetCall) (st : State) : State :=
  {| stdout := stdout st; model_calls := model_calls st;
     store_writes := store_writes st ++ [c]; store := store st |}.

Definition apply_write (c : SetCall) (st : State) : State :=
  {| stdout := stdout st; model_calls := model_calls st;
     store_writes := store_writes st; store := firestore_apply c (store st) |}.

Definition print (line : list piece) : M unit :=
  fun st => (Returned tt, emit [line] st).

Definition call_model_service (W : World) (c : GenerateContentCall) : M string :=
  fun st => (generate_content W c, record_call c st).

(** [s.split(sep)] for a separator of one character. *)
Fixpoint split_from (sep : ascii) (s : string) (cur : string) : list string :=
  match s with
  | EmptyString => [cur]
  | String c r =>
      if Ascii.eqb c sep then cur :: split_from sep r EmptyString
      else split_from sep r (cur +:+ String c EmptyString)
  end.

Definition py_split (sep : ascii) (s : string) : list string :=
  split_from sep s EmptyString.

(** The elements of the path of [collection/document_id]: the client joins
    the two with a slash and splits the result at every slash. *)
Definition document_path (collection document_id : string) : list string :=
  py_split "/" (collection +:+ "/" +:+ document_id).

(** [db.collection(collection).document(document_id)].  Without an id the
    client draws one.  The two parts of the path are joined, which asks
    for strings, and split again; a document has an even number of path
    elements, so an id with one slash is refused and one with two names a
    document further down. *)
Definition document (W : World) (collection : string) (document_id : pyvalue)
  : outcome DocumentReference :=
  match document_id with
  | PyNone | PyStr _ =>
      let id := match document_id with PyStr s => s | _ => auto_id W end in
      if Nat.even (length (document_path collection id))
      then Returned {| ref_collection := collection; ref_id := id |}
      else Raised (ValueError "A document must have an even number of path elements")
  | _ => Raised (TypeError "sequence item 1: expected str instance")
  end.

(** [doc_ref.set(data, merge=merge)]: the write is sent; the store either
    raises or applies it. *)
Definition doc_set (W : World) (doc_ref : DocumentReference) (data : pydict) (merge : bool)
  : M unit :=
  fun st =>
    let c := {| set_ref := doc_ref; set_data := data; set_merge := merge |} in
    match firestore_fault W c with
    | Some e => (Raised e, record_write c st)
    | None => (Returned tt, apply_write c (record_write c st))
    end.

(* ===================================================================== *)
(** ** The handler *)
(* ===================================================================== *)

(** [document_data.get("fields", {}).get(name, {}).get("stringValue")] *)
Definition string_field (document_data : pyvalue) (name : string) : outcome pyvalue :=
  match py_get document_data "fields" (PyDict []) with
  | Raised e => Raised e
  | Returned fields =>
      match py_get fields name (PyDict []) with
      | Raised e => Raised e
      | Returned wrapper => py_get wrapper "stringValue" PyNone
      end
  end.

(** The body of [image_processor] after [document_data] is bound: from the
    three reads of the fields to the end. *)
Definition process_document (W : World) (document_data : pyvalue) : M unit :=
  gcs_url <- lift (string_field document_data "image") ;;
  mime_type <- lift (string_field document_data "type") ;;
  document_id <- lift (string_field document_data "ID") ;;
  if negb (py_all [gcs_url; mime_type; document_id]) then
    print [Lit "Missing required fields in document: "; FmtValue document_data]
  else
    let current_datetime := isoformat (clock W) in
    prompt <- lift (py_format PROMPT_TEMPLATE [("current_datetime", current_datetime)]) ;;
    response_text <-
      call_model_service W
        {| call_client := client (environ W);
           call_model := MODEL_ID;
           call_contents :=
             [ContentPart {| file_uri := gcs_url; mime_type := mime_type |};
              ContentText prompt];
           call_config :=
             {| response_mime_type := "application/json";
                config_response_schema := response_schema |} |} ;;
    print [Lit "Raw Gemini Response: "; FmtStr response_text] ;;;
    event_data <- lift (json_loads W response_text) ;;
    print [FmtValue event_data] ;;;
    let firestore_document := [("processed", PyBool true); ("event", event_data)] in
    try_except
      (doc_ref <- lift (document W "state" document_id) ;;
       doc_set W doc_ref firestore_document true ;;;
       print [Lit "Successfully wrote data to Firestore document: "; FmtValue document_id])
      GoogleAPICallError_cls
      (fun e => print [Lit "Error writing to Firestore: "; FmtException e]).

(** The body of [image_processor] from its second statement on, for the
    [firestore_payload] that the first statement binds.  [MessageToDict]
    is handed [firestore_payload.value], the proto-plus object. *)
Definition process_payload (W : World) (cloud_event : CloudEvent)
  (firestore_payload : DocumentEventData) : M unit :=
  print [Lit "Function triggered by change to: "; FmtStr (ce_source cloud_event)] ;;;
  print [Lit (nl +:+ "New  value:")] ;;;
  print [FmtMessage (value firestore_payload)] ;;;
  document_data <- lift (MessageToDict (ProtoPlus (value firestore_payload))) ;;
  process_document W document_data.

(** The handler: the payload is a new, empty message, and nothing of the
    event is read into it. *)
Definition image_processor (W : World) (cloud_event : CloudEvent) : M unit :=
  let firestore_payload := DocumentEventData_new in
  process_payload W cloud_event firestore_payload.

(* ===================================================================== *)
(** ** Vocabulary of the statements *)
(* ===================================================================== *)

(** The field [name] of the snapshot holds the text [s], which is not
    empty. *)
Definition field_text (d : Document) (name s : string) : Prop :=
  assoc_get name (doc_fields d) = Some (StringValue s) /\ s <> EmptyString.

(** The field [name] of the snapshot is absent, or is an empty string. *)
Definition field_missing (d : Document) (name : string) : Prop :=
  assoc_get name (doc_fields d) = None \/
  assoc_get name (doc_fields d) = Some (StringValue EmptyString).

Definition is_string_value (v : Value) : bool :=
  match v with StringValue _ => true | _ => false end.

(** The three reads of [document_data] give the text [s], which is not
    empty, for the field [name]. *)
Definition text_field (document_data : pyvalue) (name s : string) : Prop :=
  string_field document_data name = Returned (PyStr s) /\ s <> EmptyString.

(** The path of [collection/document_id] has an even number of elements. *)
Definition even_path (collection document_id : string) : bool :=
  Nat.even (length (document_path collection document_id)).

(** The exception of line 130. *)
Definition descriptor_error : exception :=
  AttributeError "Unknown field for Document: DESCRIPTOR".

(** The exception of [document] on a path with an odd number of
    elements. *)
Definition path_error : exception :=
  ValueError "A document must have an even number of path elements".

(** The three lines every invocation prints first. *)
Definition preamble (cloud_event : CloudEvent) (firestore_payload : DocumentEventData)
  : list (list piece) :=
  [[Lit "Function triggered by change to: "; FmtStr (ce_source cloud_event)];
   [Lit (nl +:+ "New  value:")];
   [FmtMessage (value firestore_payload)]].

Definition missing_line (document_data : pyvalue) : list piece :=
  [Lit "Missing required fields in document: "; FmtValue document_data].

(** The prompt for a given rendering of the current time. *)
Definition rendered_prompt (current_datetime : string) : string :=
  match py_format PROMPT_TEMPLATE [("current_datetime", current_datetime)] with
  | Returned s => s
  | Raised _ => EmptyString
  end.

(** The request sent for the values read under [image] and [type]. *)
Definition request_of (W : World) (gcs_url mime_type : pyvalue) : GenerateContentCall :=
  {| call_client := client (environ W);
     call_model := MODEL_ID;
     call_contents :=
       [ContentPart {| file_uri := gcs_url; mime_type := mime_type |};
        ContentText (rendered_prompt (isoformat (clock W)))];
     call_config :=
       {| response_mime_type := "application/json";
          config_response_schema := response_schema |} |}.

(** The request sent for an image at [gcs_url] of type [mime_type]. *)
Definition request_for (W : World) (gcs_url mime_type : string) : GenerateContentCall :=
  request_of W (PyStr gcs_url) (PyStr mime_type).

(** The write sent for transaction [document_id] and answer [event_data]. *)
Definition write_for (document_id : string) (event_data : pyvalue) : SetCall :=
  {| set_ref := {| ref_collection := "state"; ref_id := document_id |};
     set_data := [("processed", PyBool true); ("event", event_data)];
     set_merge := true |}.

(** What [process_document] does once the three values read are truthy,
    read off the answers of the world. *)
Definition completed (W : World) (gcs_url mime_type document_id : pyvalue) (st : State)
  : outcome unit * State :=
  let c := request_of W gcs_url mime_type in
  let st1 := record_call c st in
  match generate_content W c with
  | Raised e => (Raised e, st1)
  | Returned text =>
      let st2 := emit [[Lit "Raw Gemini Response: "; FmtStr text]] st1 in
      match json_loads W text with
      | Raised e => (Raised e, st2)
      | Returned event_data =>
          let st3 := emit [[FmtValue event_data]] st2 in
          match document W "state" document_id with
          | Raised e =>
              if isinstance e GoogleAPICallError_cls
              then (Returned tt, emit [[Lit "Error writing to Firestore: "; FmtException e]] st3)
              else (Raised e, st3)
          | Returned doc_ref =>
              let w := {| set_ref := doc_ref;
                          set_data := [("processed", PyBool true); ("event", event_data)];
                          set_merge := true |} in
              match firestore_fault W w with
              | None =>
                  (Returned tt,
                   emit [[Lit "Successfully wrote data to Firestore document: ";
                          FmtValue document_id]] (apply_write w (record_write w st3)))
              | Some e =>
                  if isinstance e GoogleAPICallError_cls
                  then (Returned tt,
                        emit [[Lit "Error writing to Firestore: "; FmtException e]]
                          (record_write w st3))
                  else (Raised e, record_write w st3)
              end
          end
      end
  end.

(* ===================================================================== *)
(** ** Sample worlds and events *)
(* ===================================================================== *)

(** A decoder for the JSON texts of the examples: objects, arrays, strings
    without escapes, integers and the three literals.  Any other text is
    reported as a decode error. *)
Definition JSONDecodeError (msg : string) : exception :=
  {| exc_mro := ["JSONDecodeError"; "ValueError"; "Exception"; "BaseException"; "object"];
     exc_msg := msg |}.

Definition is_ws (c : ascii) : bool :=
  Ascii.eqb c " " || Ascii.eqb c (ascii_of_nat 9) || Ascii.eqb c (ascii_of_nat 10)
  || Ascii.eqb c (ascii_of_nat 13).

Fixpoint skip_ws (s : string) : string :=
  match s with
  | EmptyString => s
  | String c r => if is_ws c then skip_ws r else s
  end.

(** The characters up to the closing quote. *)
Fixpoint json_string_body (s : string) (acc : string) : option (string * string) :=
  match s with
  | EmptyString => None
  | String c r =>
      if Ascii.eqb c (ascii_of_nat 34) then Some (acc, r)
      else if Ascii.eqb c (ascii_of_nat 92) then None
      else json_string_body r (acc +:+ String c EmptyString)
  end.

Fixpoint take_digits (s : string) (acc : string) : string * string :=
  match s with
  | EmptyString => (acc, s)
  | String c r => if is_digit c then take_digits r (acc +:+ String c EmptyString) else (acc, s)
  end.

Definition json_int (s : string) : option (Z * string) :=
  let '(ds, rest) := take_digits s EmptyString in
  match ds with
  | EmptyString => None
  | String c more =>
      if Ascii.eqb c "0" && negb (String.eqb more EmptyString) then None
      else match rest with
           | String x _ =>
               if Ascii.eqb x "." || Ascii.eqb x "e" || Ascii.eqb x "E" then None
               else Some (digits_value 0 ds, rest)
           | EmptyString => Some (digits_value 0 ds, rest)
           end
  end.

Definition strip_prefix (pre s : string) : option string :=
  if String.prefix pre s
  then Some (String.substring (String.length pre) (String.length s - String.length pre) s)
  else None.

Fixpoint json_value (fuel : nat) (s : string) {struct fuel} : option (pyvalue * string) :=
  match fuel with
  | O => None
  | S fuel' =>
      match skip_ws s with
      | EmptyString => None
      | String c r =>
          if Ascii.eqb c (ascii_of_nat 34) then
            '(str, rest) ← json_string_body r EmptyString; Some (PyStr str, rest)
          else if Ascii.eqb c "{" then
            match skip_ws r with
            | String c' r' =>
                if Ascii.eqb c' "}" then Some (PyDict [], r')
                else '(d, rest) ← json_members fuel' r []; Some (PyDict d, rest)
            | EmptyString => None
            end
          else if Ascii.eqb c "[" then
            match skip_ws r with
            | String c' r' =>
                if Ascii.eqb c' "]" then Some (PyList [], r')
                else '(l, rest) ← json_elements fuel' r []; Some (PyList l, rest)
            | EmptyString => None
            end
          else if Ascii.eqb c "-" then
            '(z, rest) ← json_int r; Some (PyInt (- z), rest)
          else if is_digit c then
            '(z, rest) ← json_int (String c r); Some (PyInt z, rest)
          else match strip_prefix "true" (String c r) with
               | Some rest => Some (PyBool true, rest)
               | None =>
                   match strip_prefix "false" (String c r) with
                   | Some rest => Some (PyBool false, rest)
                   | None =>
                       match strip_prefix "null" (String c r) with
                       | Some rest => Some (PyNone, rest)
                       | None => None
                       end
                   end
               end
      end
  end
with json_members (fuel : nat) (s : string) (acc : pydict) {struct fuel}
  : option (pydict * string) :=
  match fuel with
  | O => None
  | S fuel' =>
      s1 ← expect (ascii_of_nat 34) (skip_ws s);
      '(k, s2) ← json_string_body s1 EmptyString;
      s3 ← expect ":" (skip_ws s2);
      '(v, s4) ← json_value fuel' s3;
      match skip_ws s4 with
      | String c r =>
          if Ascii.eqb c "," then json_members fuel' r (assoc_set k v acc)
          else if Ascii.eqb c "}" then Some (assoc_set k v acc, r)
          else None
      | EmptyString => None
      end
  end
with json_elements (fuel : nat) (s : string) (acc : list pyvalue) {struct fuel}
  : option (list pyvalue * string) :=
  match fuel with
  | O => None
  | S fuel' =>
      '(v, s1) ← json_value fuel' s;
      match skip_ws s1 with
      | String c r =>
          if Ascii.eqb c "," then json_elements fuel' r (acc ++ [v])
          else if Ascii.eqb c "]" then Some (acc ++ [v], r)
          else None
      | EmptyString => None
      end
  end.

Definition sample_json_loads (s : string) : outcome pyvalue :=
  match json_value (S (String.length s)) s with
  | Some (v, rest) =>
      if String.eqb (skip_ws rest) EmptyString then Returned v
      else Raised (JSONDecodeError "Extra data")
  | None => Raised (JSONDecodeError "Expecting value")
  end.

(** The answer of the spec's round-trip example. *)
Definition sample_response : string :=
  "{" +:+ quoted "summary" +:+ ":" +:+ quoted "Meeting" +:+ ","
  +:+ quoted "location" +:+ ":" +:+ quoted "Room 1" +:+ ","
  +:+ quoted "description" +:+ ":" +:+ quoted "desc" +:+ ","
  +:+ quoted "start" +:+ ":" +:+ quoted "2025-06-01T10:00:00" +:+ ","
  +:+ quoted "end" +:+ ":" +:+ quoted "2025-06-01T11:00:00" +:+ "}".

Definition sample_event_data : pydict :=
  [("summary", PyStr "Meeting"); ("location", PyStr "Room 1");
   ("description", PyStr "desc"); ("start", PyStr "2025-06-01T10:00:00");
   ("end", PyStr "2025-06-01T11:00:00")].

Definition sample_clock : datetime :=
  {| year := 2025; month := 5; day := 20;
     hour := 9; minute := 30; second := 15; microsecond := 250000 |}.

(** The model answers with the example; the store accepts every write. *)
Definition sample_world : World :=
  {| environ := ∅;
     clock := sample_clock;
     generate_content := fun _ => Returned sample_response;
     json_loads := sample_json_loads;
     auto_id := "Zq3vXw8LmN0pRs5TuY7a";
     firestore_fault := fun _ => None |}.

(** The model answers with text that is not JSON. *)
Definition chatty_world : World :=
  {| environ := {["LOCATION" := "us-central1"]};
     clock := sample_clock;
     generate_content := fun _ => Returned "Sorry, I cannot read this image.";
     json_loads := sample_json_loads;
     auto_id := "Zq3vXw8LmN0pRs5TuY7a";
     firestore_fault := fun _ => None |}.

Definition ServiceUnavailable (msg : string) : exception :=
  {| exc_mro := ["ServiceUnavailable"; "ServerError"; "GoogleAPICallError";
                 "GoogleAPIError"; "Exception"; "BaseException"; "object"];
     exc_msg := msg |}.

(** The store refuses every write with an API error. *)
Definition unavailable_world : World :=
  {| environ := ∅;
     clock := sample_clock;
     generate_content := fun _ => Returned sample_response;
     json_loads := sample_json_loads;
     auto_id := "Zq3vXw8LmN0pRs5TuY7a";
     firestore_fault := fun _ => Some (ServiceUnavailable "503 unavailable") |}.

Definition sample_cloud_event : CloudEvent :=
  {| ce_source := "//firestore.googleapis.com/projects/p/databases/(default)";
     ce_data := [] |}.

Definition snapshot_of (fs : list (string * Value)) : DocumentEventData :=
  {| value := {| doc_name := "projects/p/databases/(default)/documents/screenshots/s1";
                 doc_fields := fs; doc_create_time := None; doc_update_time := None |};
     old_value := Document_empty;
     update_mask := [] |}.

(** The scenario of the spec: the three fields are there. *)
Definition sample_payload : DocumentEventData :=
  snapshot_of [("image", StringValue "gs://bucket/a.png");
               ("type", StringValue "image/png");
               ("ID", StringValue "tx-1")].

(** The scenario of the spec: [ID] is missing. *)
Definition payload_without_id : DocumentEventData :=
  snapshot_of [("image", StringValue "gs://bucket/a.png");
               ("type", StringValue "image/png")].

(** [ID] holds one slash. *)
Definition payload_slash_id : DocumentEventData :=
  snapshot_of [("image", StringValue "gs://bucket/a.png");
               ("type", StringValue "image/png");
               ("ID", StringValue "a/b")].

(** [ID] is there, as an integer. *)
Definition payload_integer_id : DocumentEventData :=
  snapshot_of [("image", StringValue "gs://bucket/a.png");
               ("type", StringValue "image/png");
               ("ID", IntegerValue 7)].

Definition initial_state : State :=
  {| stdout := []; model_calls := []; store_writes := []; store := ∅ |}.

(** The upload flow has already created [state/tx-1]. *)
Definition uploaded_document : stored_document :=
  {["active" := PyBool true; "error" := PyBool false; "processed" := PyBool false;
    "image" := PyStr "gs://bucket/a.png"; "ID" := PyStr "tx-1"]}.

Definition uploaded_state : State :=
  {| stdout := []; model_calls := []; store_writes := [];
     store := {[("state", "tx-1") := uploaded_document]} |}.

Definition ResourceExhausted (msg : string) : exception :=
  {| exc_mro := ["ResourceExhausted"; "TooManyRequests"; "ClientError";
                 "GoogleAPICallError"; "GoogleAPIError"; "Exception"; "BaseException";
                 "object"];
     exc_msg := msg |}.

(** The model refuses every request with an API error. *)
Definition exhausted_world : World :=
  {| environ := ∅;
     clock := sample_clock;
     generate_content := fun _ => Raised (ResourceExhausted "429 quota exceeded");
     json_loads := sample_json_loads;
     auto_id := "Zq3vXw8LmN0pRs5TuY7a";
     firestore_fault := fun _ => None |}.


(** What line 130 would bind, had it been handed the protobuf message of
    each sample snapshot. *)
Definition sample_document_data : pyvalue := Document_to_dict (value sample_payload).
Definition document_data_without_id : pyvalue :=
  Document_to_dict (value payload_without_id).
Definition document_data_integer_id : pyvalue :=
  Document_to_dict (value payload_integer_id).
Definition document_data_slash_id : pyvalue := Document_to_dict (value payload_slash_id).

(* ===================================================================== *)
(** ** Lemmas: reading the snapshot *)
(* ===================================================================== *)

Lemma assoc_get_fields_to_dict (name : string) (fs : list (string * Value)) :
  assoc_get name (fields_to_dict fs) =
  (fun v => PyDict (Value_to_dict v)) <$> assoc_get name fs.
Proof.
  induction fs as [|[k v] fs IH]; simpl; [reflexivity|].
  destruct (String.eqb name k); [reflexivity | exact IH].
Qed.

Lemma get_stringValue (v : Value) :
  py_get (PyDict (Value_to_dict v)) "stringValue" PyNone =
  Returned (match v with StringValue s => PyStr s | _ => PyNone end).
Proof. destruct v; reflexivity. Qed.

Lemma get_fields (d : Document) :
  py_get (Document_to_dict d) "fields" (PyDict []) = Returned (PyDict (fields_to_dict (doc_fields d))).
Proof.
  destruct d as [n fs ct ut]; unfold Document_to_dict, py_get; simpl.
  destruct (String.eqb n EmptyString), fs as [|kv fs], ct, ut; reflexivity.
Qed.

(** The three-step [get] of the handler reads the string value of a field
    and nothing else. *)
Lemma string_field_snapshot (d : Document) (name : string) :
  string_field (Document_to_dict d) name =
  Returned (match assoc_get name (doc_fields d) with
            | Some (StringValue s) => PyStr s
            | _ => PyNone
            end).
Proof.
  unfold string_field. rewrite get_fields.
  unfold py_get at 1. rewrite assoc_get_fields_to_dict.
  destruct (assoc_get name (doc_fields d)) as [v|]; [|reflexivity].
  change (py_get (PyDict (Value_to_dict v)) "stringValue" PyNone = Returned
            match v with StringValue s => PyStr s | _ => PyNone end).
  apply get_stringValue.
Qed.

Lemma string_field_text (d : Document) (name s : string) :
  field_text d name s -> string_field (Document_to_dict d) name = Returned (PyStr s).
Proof. intros [H _]. rewrite string_field_snapshot, H. reflexivity. Qed.

Lemma truthy_text (s : string) : s <> EmptyString -> truthy (PyStr s) = true.
Proof.
  intros H. simpl. destruct (String.eqb_spec s EmptyString); [contradiction | reflexivity].
Qed.

Lemma string_field_missing (d : Document) (name : string) :
  field_missing d name ->
  exists v, string_field (Document_to_dict d) name = Returned v /\ truthy v = false.
Proof.
  intros [H|H]; rewrite string_field_snapshot, H; eexists; split; reflexivity.
Qed.

Lemma string_field_total (d : Document) (name : string) :
  exists v, string_field (Document_to_dict d) name = Returned v.
Proof. rewrite string_field_snapshot. eexists; reflexivity. Qed.

Lemma text_field_snapshot (d : Document) (name s : string) :
  field_text d name s -> text_field (Document_to_dict d) name s.
Proof. intros H. split; [now apply string_field_text | apply H]. Qed.

(* ===================================================================== *)
(** ** Lemmas: the paths of the handler *)
(* ===================================================================== *)

Lemma emit_emit (l1 l2 : list (list piece)) (st : State) :
  emit l2 (emit l1 st) = emit (l1 ++ l2) st.
Proof. unfold emit; simpl. f_equal. symmetry; apply app_assoc. Qed.

Lemma emit_nil (st : State) : emit [] st = st.
Proof. destruct st. unfold emit; simpl. now rewrite app_nil_r. Qed.

Lemma py_format_prompt (v : string) :
  py_format PROMPT_TEMPLATE [("current_datetime", v)] = Returned (rendered_prompt v).
Proof. vm_compute. reflexivity. Qed.

Lemma rendered_prompt_shape (v : string) :
  exists tail, rendered_prompt v = " The current date and time is: " +:+ v +:+ tail.
Proof. eexists. vm_compute. reflexivity. Qed.

(** Line 130 raises on every payload: the three opening lines are
    printed and nothing else happens. *)
Lemma process_payload_raises (W : World) (ce : CloudEvent) (p : DocumentEventData)
  (st : State) :
  process_payload W ce p st = (Raised descriptor_error, emit (preamble ce p) st).
Proof.
  unfold process_payload, bind, print, lift. cbn [MessageToDict].
  rewrite !emit_emit. reflexivity.
Qed.

(** When one of the three values read is falsy the body prints the line
    about the missing fields and returns. *)
Lemma process_document_skip (W : World) (dd : pyvalue) (st : State) (a b c : pyvalue) :
  string_field dd "image" = Returned a ->
  string_field dd "type" = Returned b ->
  string_field dd "ID" = Returned c ->
  py_all [a; b; c] = false ->
  process_document W dd st = (Returned tt, emit [missing_line dd] st).
Proof.
  intros Ha Hb Hc Hall.
  unfold process_document, bind, print, lift.
  rewrite Ha, Hb, Hc, Hall. reflexivity.
Qed.

(** When the three values are truthy the body goes through the model and
    the store. *)
Lemma process_document_checked (W : World) (dd : pyvalue) (st : State) (a b c : pyvalue) :
  string_field dd "image" = Returned a ->
  string_field dd "type" = Returned b ->
  string_field dd "ID" = Returned c ->
  py_all [a; b; c] = true ->
  process_document W dd st = completed W a b c st.
Proof.
  intros Ha Hb Hc Hall.
  unfold process_document, completed, bind, print, lift, try_except, call_model_service.
  rewrite Ha, Hb, Hc, Hall. cbn [negb]. cbv beta iota.
  rewrite py_format_prompt. fold (request_of W a b).
  destruct (generate_content W (request_of W a b)) as [text|e]; [|reflexivity].
  destruct (json_loads W text) as [ev|e]; [|reflexivity].
  rewrite !emit_emit.
  destruct (document W "state" c) as [ref|e]; [|reflexivity].
  unfold doc_set.
  destruct (firestore_fault W _) as [e|]; [|reflexivity].
  destruct (isinstance e GoogleAPICallError_cls); reflexivity.
Qed.

(** When a read raises, the exception leaves the body and nothing has
    happened. *)
Lemma process_document_unreadable (W : World) (dd : pyvalue) (st : State) (e : exception) :
  string_field dd "image" = Raised e \/
  (exists a, string_field dd "image" = Returned a /\ string_field dd "type" = Raised e) \/
  (exists a b, string_field dd "image" = Returned a /\ string_field dd "type" = Returned b /\
               string_field dd "ID" = Raised e) ->
  process_document W dd st = (Raised e, st).
Proof.
  unfold process_document, bind, lift.
  intros [H|[(a & Ha & H)|(a & b & Ha & Hb & H)]].
  - now rewrite H.
  - now rewrite Ha, H.
  - now rewrite Ha, Hb, H.
Qed.

Lemma py_all_text (u m i : string) :
  u <> EmptyString -> m <> EmptyString -> i <> EmptyString ->
  py_all [PyStr u; PyStr m; PyStr i] = true.
Proof.
  intros Hu Hm Hi. unfold py_all, forallb.
  now rewrite (truthy_text u Hu), (truthy_text m Hm), (truthy_text i Hi).
Qed.

Lemma document_text (W : World) (i : string) :
  document W "state" (PyStr i) =
  if even_path "state" i
  then Returned {| ref_collection := "state"; ref_id := i |}
  else Raised path_error.
Proof. reflexivity. Qed.

Lemma path_error_not_api : isinstance path_error GoogleAPICallError_cls = false.
Proof. reflexivity. Qed.

(** The exceptions of [document] are never the API error of the store
    client. *)
Lemma document_error_not_api (W : World) (c : pyvalue) (e : exception) :
  document W "state" c = Raised e -> isinstance e GoogleAPICallError_cls = false.
Proof.
  unfold document. destruct c; try (intros [= <-]; reflexivity);
    destruct (Nat.even _); try discriminate; intros [= <-]; reflexivity.
Qed.

(* ===================================================================== *)
(** ** Lemmas: decimal digits *)
(* ===================================================================== *)

Lemma append_nil (b : string) : EmptyString +:+ b = b.
Proof. reflexivity. Qed.

Lemma append_cons (x : ascii) (a b : string) : String x a +:+ b = String x (a +:+ b).
Proof. reflexivity. Qed.

Lemma append_assoc (a b c : string) : (a +:+ b) +:+ c = a +:+ (b +:+ c).
Proof.
  induction a as [|x a IH]; [reflexivity|].
  rewrite !append_cons. now rewrite IH.
Qed.

Lemma append_empty_r (a : string) : a +:+ EmptyString = a.
Proof.
  induction a as [|x a IH]; [reflexivity|].
  rewrite append_cons. now rewrite IH.
Qed.

Lemma length_append (a b : string) :
  String.length (a +:+ b) = (String.length a + String.length b)%nat.
Proof.
  induction a as [|x a IH]; [reflexivity|].
  rewrite append_cons; simpl. now rewrite IH.
Qed.

Lemma all_digits_append (a b : string) :
  all_digits (a +:+ b) = all_digits a && all_digits b.
Proof.
  induction a as [|x a IH]; [reflexivity|].
  rewrite append_cons; simpl. rewrite IH. now destruct (is_digit x).
Qed.

Lemma digits_value_snoc (p : string) (c : ascii) (acc : Z) :
  digits_value acc (p +:+ String c EmptyString) = digits_value acc p * 10 + digit_value c.
Proof.
  revert acc; induction p as [|x p IH]; intros acc; [reflexivity|].
  rewrite append_cons; simpl. apply IH.
Qed.

Lemma digit_char_spec (d : Z) :
  0 <= d <= 9 -> is_digit (digit_char d) = true /\ digit_value (digit_char d) = d.
Proof.
  intros H.
  assert (Hd : d = 0 \/ d = 1 \/ d = 2 \/ d = 3 \/ d = 4 \/ d = 5 \/ d = 6 \/ d = 7
               \/ d = 8 \/ d = 9) by lia.
  repeat (destruct Hd as [-> | Hd]; [split; reflexivity|]).
  subst d; split; reflexivity.
Qed.

(** With enough fuel, [decimal_digits] puts in front of [acc] between one
    and [w] digits that denote [n]. *)
Lemma decimal_digits_spec (w : nat) :
  forall (fuel : nat) (n : Z) (acc : string),
    (1 <= w)%nat -> (1 <= fuel)%nat ->
    0 <= n < 10 ^ Z.of_nat w -> n < 2 ^ Z.of_nat fuel ->
    exists p, decimal_digits fuel n acc = p +:+ acc /\
              (1 <= String.length p <= w)%nat /\
              all_digits p = true /\ digits_value 0 p = n.
Proof.
  induction w as [|w IH]; intros fuel n acc Hw Hfuel Hn Hpow; [lia|].
  destruct fuel as [|fuel]; [lia|]. simpl decimal_digits.
  assert (Hmod : 0 <= n mod 10 <= 9) by (pose proof (Z.mod_pos_bound n 10); lia).
  destruct (digit_char_spec _ Hmod) as [Hdig Hval].
  destruct (Z.eqb_spec (n / 10) 0) as [Hz|Hnz].
  - exists (String (digit_char (n mod 10)) EmptyString).
    rewrite append_cons, append_nil. simpl.
    rewrite Hdig, Hval. repeat split; try lia.
    pose proof (Z.div_mod n 10); lia.
  - assert (Hq : 1 <= n / 10) by (pose proof (Z.div_pos n 10); lia).
    assert (Hqw : n / 10 < 10 ^ Z.of_nat w).
    { apply Z.div_lt_upper_bound; [lia|].
      rewrite Nat2Z.inj_succ, Z.pow_succ_r in Hn by lia. lia. }
    assert (Hqf : n / 10 < 2 ^ Z.of_nat fuel).
    { apply Z.div_lt_upper_bound; [lia|].
      rewrite Nat2Z.inj_succ, Z.pow_succ_r in Hpow by lia. lia. }
    assert (Hw1 : (1 <= w)%nat).
    { destruct w; [simpl in Hqw; lia | lia]. }
    assert (Hf1 : (1 <= fuel)%nat).
    { destruct fuel; [simpl in Hqf; lia | lia]. }
    destruct (IH fuel (n / 10) (String (digit_char (n mod 10)) acc) Hw1 Hf1)
      as (p & Hp & Hlen & Hall & Hv); [lia | lia |].
    exists (p +:+ String (digit_char (n mod 10)) EmptyString).
    rewrite Hp, append_assoc, length_append, all_digits_append, digits_value_snoc.
    rewrite append_cons, append_nil. simpl.
    rewrite Hall, Hdig, Hv, Hval. repeat split; try lia.
    pose proof (Z.div_mod n 10); lia.
Qed.

Lemma str_nonneg_spec (w : nat) (n : Z) :
  (1 <= w)%nat -> 0 <= n < 10 ^ Z.of_nat w ->
  (1 <= String.length (str_nonneg n) <= w)%nat /\
  all_digits (str_nonneg n) = true /\ digits_value 0 (str_nonneg n) = n.
Proof.
  intros Hw Hn. unfold str_nonneg.
  destruct (decimal_digits_spec w (S (Z.to_nat (Z.log2 n))) n EmptyString)
    as (p & Hp & Hrest); try lia.
  - rewrite Nat2Z.inj_succ, Z2Nat.id by apply Z.log2_nonneg.
    destruct (Z.eq_dec n 0) as [->|Hne]; [reflexivity|].
    apply Z.log2_spec; lia.
  - rewrite Hp, append_empty_r. exact Hrest.
Qed.

Lemma zeros_length (k : nat) : String.length (zeros k) = k.
Proof. induction k; simpl; [reflexivity | now f_equal]. Qed.

Lemma zeros_all_digits (k : nat) : all_digits (zeros k) = true.
Proof. induction k; simpl; [reflexivity | assumption]. Qed.

Lemma read_fixed_zeros (k j : nat) (s : string) :
  read_fixed (k + j) 0 (zeros k +:+ s) = read_fixed j 0 s.
Proof.
  induction k as [|k IH]; [reflexivity|].
  simpl zeros. rewrite append_cons. simpl. exact IH.
Qed.

Lemma read_fixed_digits (p rest : string) :
  forall acc, all_digits p = true ->
              read_fixed (String.length p) acc (p +:+ rest) = Some (digits_value acc p, rest).
Proof.
  induction p as [|c p IH]; intros acc H; [reflexivity|].
  rewrite append_cons. simpl in *.
  apply andb_prop in H as [Hc Hp]. rewrite Hc. now apply IH.
Qed.

(** Reading back [w] digits of ["%0wd" % n] gives [n]. *)
Lemma read_fixed_format (w : nat) (n : Z) (rest : string) :
  (1 <= w)%nat -> 0 <= n < 10 ^ Z.of_nat w ->
  read_fixed w 0 (format_0d w n +:+ rest) = Some (n, rest).
Proof.
  intros Hw Hn. destruct (str_nonneg_spec w n Hw Hn) as (Hlen & Hall & Hv).
  unfold format_0d. destruct (Z.ltb_spec n 0) as [Hneg|_]; [lia|].
  rewrite append_assoc.
  replace w with ((w - String.length (str_nonneg n)) + String.length (str_nonneg n))%nat
    at 1 by lia.
  rewrite read_fixed_zeros, read_fixed_digits by exact Hall.
  now rewrite Hv.
Qed.

Lemma format_0d_digits (w : nat) (n : Z) :
  (1 <= w)%nat -> 0 <= n < 10 ^ Z.of_nat w ->
  all_digits (format_0d w n) = true /\ String.length (format_0d w n) = w.
Proof.
  intros Hw Hn. destruct (str_nonneg_spec w n Hw Hn) as (Hlen & Hall & _).
  unfold format_0d. destruct (Z.ltb_spec n 0) as [Hneg|_]; [lia|].
  rewrite all_digits_append, length_append, zeros_all_digits, zeros_length, Hall.
  split; [reflexivity | lia].
Qed.

Lemma skip_digits_all (p : string) : all_digits p = true -> skip_digits p = EmptyString.
Proof.
  induction p as [|c p IH]; simpl; [reflexivity|].
  intros H. apply andb_prop in H as [Hc Hp]. rewrite Hc. now apply IH.
Qed.

(* ===================================================================== *)
(** ** Lemmas: [isoformat] gives an ISO 8601 representation *)
(* ===================================================================== *)

Lemma days_in_month_le_31 (y m : Z) : days_in_month y m <= 31.
Proof.
  unfold days_in_month.
  destruct (m =? 2); [destruct (is_leap y); lia|].
  destruct ((m =? 4) || (m =? 6) || (m =? 9) || (m =? 11)); lia.
Qed.

Lemma read_fraction_microsecond (us : Z) :
  0 <= us <= 999999 ->
  read_fraction (if us =? 0 then EmptyString else "." +:+ format_0d 6 us) = Some EmptyString.
Proof.
  intros H. destruct (Z.eqb_spec us 0) as [_|_]; [reflexivity|].
  destruct (format_0d_digits 6 us) as [Hall Hlen]; [lia | simpl; lia |].
  rewrite append_cons, append_nil.
  destruct (format_0d 6 us) as [|c r]; [discriminate Hlen|].
  simpl in Hall. apply andb_prop in Hall as [Hc Hr].
  simpl. rewrite Hc. now rewrite skip_digits_all.
Qed.

(** One step of the recogniser on the text of [isoformat]: a field of [w]
    digits, then a separator. *)
Ltac read_field :=
  rewrite read_fixed_format by (simpl; lia); cbn [mbind option_bind].
Ltac read_separator :=
  rewrite append_cons, append_nil; cbn [expect Ascii.eqb Bool.eqb mbind option_bind].

(** Parsing the text of a valid [datetime] gives back its date and time. *)
Lemma iso8601_parse_isoformat (d : datetime) :
  valid_datetime d ->
  iso8601_parse (isoformat d) =
  Some (year d, month d, day d, (hour d, minute d, second d)).
Proof.
  intros (Hy & Hmo & Hd & Hh & Hmi & Hs & Hus).
  pose proof (days_in_month_le_31 (year d) (month d)) as H31.
  unfold iso8601_parse, isoformat.
  do 5 (read_field; read_separator). read_field.
  rewrite read_fraction_microsecond by lia.
  cbn [mbind option_bind read_zone String.eqb andb].
  repeat match goal with
         | |- context [?a <=? ?b] =>
             replace (a <=? b) with true by (symmetry; apply Z.leb_le; lia)
         end.
  reflexivity.
Qed.

Lemma isoformat_is_iso8601 (d : datetime) :
  valid_datetime d -> is_iso8601 (isoformat d) = true.
Proof. intros H. unfold is_iso8601. now rewrite iso8601_parse_isoformat. Qed.

(* ===================================================================== *)
(** ** Lemmas: the document store *)
(* ===================================================================== *)

(** A merge leaves alone the fields that the data does not name. *)
Lemma merge_fields_other (data : pydict) :
  forall (doc : stored_document) (k : string),
    k ∉ (fst <$> data) -> merge_fields doc data !! k = doc !! k.
Proof.
  unfold merge_fields.
  induction data as [|[k' v] data IH]; intros doc k Hk; simpl; [reflexivity|].
  rewrite fmap_cons in Hk. apply not_elem_of_cons in Hk as [Hne Hk].
  rewrite IH by exact Hk. simpl in Hne. now rewrite lookup_insert_ne.
Qed.

(** A replacement does not. *)
Lemma replace_fields_other (data : pydict) (k : string) :
  k ∉ (fst <$> data) -> replace_fields data !! k = None.
Proof.
  unfold replace_fields.
  assert (H : forall doc : stored_document, k ∉ (fst <$> data) ->
            foldl (fun acc kv => <[fst kv := snd kv]> acc) doc data !! k = doc !! k).
  { induction data as [|[k' v] data IH]; intros doc Hk; simpl; [reflexivity|].
    rewrite fmap_cons in Hk. apply not_elem_of_cons in Hk as [Hne Hk].
    rewrite IH by exact Hk. simpl in Hne. now rewrite lookup_insert_ne. }
  intros Hk. rewrite H by exact Hk. apply lookup_empty.
Qed.

Lemma firestore_apply_other (c : SetCall) (db : gmap (string * string) stored_document)
  (key : string * string) :
  key <> ref_key (set_ref c) -> firestore_apply c db !! key = db !! key.
Proof.
  intros Hne. unfold firestore_apply.
  destruct (set_merge c); now rewrite lookup_insert_ne.
Qed.

Lemma firestore_apply_merge (c : SetCall) (db : gmap (string * string) stored_document)
  (old : stored_document) :
  set_merge c = true ->
  db !! ref_key (set_ref c) = Some old ->
  firestore_apply c db !! ref_key (set_ref c) = Some (merge_fields old (set_data c)).
Proof.
  intros Hm Hold. unfold firestore_apply. rewrite Hm, lookup_insert_eq, Hold. reflexivity.
Qed.

(** The frame of one merge, for every document of the store. *)
Lemma firestore_apply_frame (c : SetCall) (db : gmap (string * string) stored_document)
  (key : string * string) (old : stored_document) :
  set_merge c = true ->
  db !! key = Some old ->
  exists new, firestore_apply c db !! key = Some new /\
              forall k, k ∉ (fst <$> set_data c) -> new !! k = old !! k.
Proof.
  intros Hm Hold. destruct (decide (key = ref_key (set_ref c))) as [->|Hne].
  - exists (merge_fields old (set_data c)). split.
    + now apply firestore_apply_merge.
    + intros k Hk. now apply merge_fields_other.
  - exists old. split; [|reflexivity].
    now rewrite firestore_apply_other.
Qed.

Lemma merge_fields_write (doc : stored_document) (event_data : pyvalue) :
  merge_fields doc [("processed", PyBool true); ("event", event_data)] =
  <["event" := merge_value (doc !! "event") event_data]> (<["processed" := PyBool true]> doc).
Proof.
  unfold merge_fields. cbn [foldl fst snd].
  rewrite lookup_insert_ne by discriminate. reflexivity.
Qed.

Lemma firestore_apply_write (document_id : string) (event_data : pyvalue)
  (db : gmap (string * string) stored_document) :
  firestore_apply (write_for document_id event_data) db !! ("state", document_id) =
  Some (<["event" := merge_value (default ∅ (db !! ("state", document_id)) !! "event")
                       event_data]>
          (<["processed" := PyBool true]> (default ∅ (db !! ("state", document_id))))).
Proof.
  unfold firestore_apply, write_for, ref_key. cbn [set_merge set_ref set_data
    ref_collection ref_id].
  rewrite lookup_insert_eq, merge_fields_write. reflexivity.
Qed.

(* ===================================================================== *)
(** ** Lemmas: the body on a rendered snapshot *)
(* ===================================================================== *)

Lemma field_text_or_falsy (d : Document) (name : string) :
  (exists s, field_text d name s) \/
  (exists v, string_field (Document_to_dict d) name = Returned v /\ truthy v = false).
Proof.
  rewrite string_field_snapshot. unfold field_text.
  destruct (assoc_get name (doc_fields d)) as [v|]; [|right; eexists; split; reflexivity].
  destruct v; try (right; eexists; split; reflexivity).
  destruct (String.eqb_spec s EmptyString) as [->|Hne].
  - right; eexists; split; reflexivity.
  - left; exists s; split; [reflexivity | exact Hne].
Qed.

Lemma py_all_false (a b c : pyvalue) :
  truthy a = false \/ truthy b = false \/ truthy c = false -> py_all [a; b; c] = false.
Proof.
  unfold py_all; simpl. intros [H|[H|H]]; rewrite H;
    destruct (truthy a), (truthy b), (truthy c); reflexivity.
Qed.

(** On the dict of a snapshot the body either skips or goes on with the
    three texts. *)
Lemma process_document_cases (W : World) (d : Document) (st : State) :
  process_document W (Document_to_dict d) st
    = (Returned tt, emit [missing_line (Document_to_dict d)] st) \/
  exists u m i,
    field_text d "image" u /\ field_text d "type" m /\ field_text d "ID" i /\
    process_document W (Document_to_dict d) st = completed W (PyStr u) (PyStr m) (PyStr i) st.
Proof.
  destruct (string_field_total d "image") as [a Ha].
  destruct (string_field_total d "type") as [b Hb].
  destruct (string_field_total d "ID") as [c Hc].
  destruct (field_text_or_falsy d "image") as [[u Hu]|[a' [Ha' Hfa]]].
  2: { left. apply (process_document_skip W _ st a' b c); auto.
       apply py_all_false; auto. }
  destruct (field_text_or_falsy d "type") as [[m Hm]|[b' [Hb' Hfb]]].
  2: { left. apply (process_document_skip W _ st a b' c); auto.
       apply py_all_false; auto. }
  destruct (field_text_or_falsy d "ID") as [[i Hi]|[c' [Hc' Hfc]]].
  2: { left. apply (process_document_skip W _ st a b c'); auto.
       apply py_all_false; auto. }
  right. exists u, m, i. repeat split; try apply Hu; try apply Hm; try apply Hi.
  apply process_document_checked;
    [now apply string_field_text | now apply string_field_text
     | now apply string_field_text | apply py_all_text; [apply Hu | apply Hm | apply Hi]].
Qed.

Lemma process_document_missing (W : World) (d : Document) (st : State) :
  field_missing d "image" \/ field_missing d "type" \/ field_missing d "ID" ->
  process_document W (Document_to_dict d) st
    = (Returned tt, emit [missing_line (Document_to_dict d)] st).
Proof.
  intros H.
  destruct (string_field_total d "image") as [a Ha].
  destruct (string_field_total d "type") as [b Hb].
  destruct (string_field_total d "ID") as [c Hc].
  apply (process_document_skip W _ st a b c); auto.
  apply py_all_false.
  destruct H as [H|[H|H]]; apply string_field_missing in H as (v & Hv & Hf).
  - left. rewrite Ha in Hv. now inversion Hv; subst.
  - right; left. rewrite Hb in Hv. now inversion Hv; subst.
  - right; right. rewrite Hc in Hv. now inversion Hv; subst.
Qed.

Lemma app_singleton_neq {A : Type} (l : list A) (x : A) : l ++ [x] <> l.
Proof.
  intros H. apply (f_equal length) in H. rewrite length_app in H. simpl in H. lia.
Qed.

(** The request of a completed run is recorded whatever the world
    answers. *)
Lemma completed_model_calls (W : World) (a b c : pyvalue) (st : State) :
  model_calls (snd (completed W a b c st)) = model_calls st ++ [request_of W a b].
Proof.
  unfold completed.
  destruct (generate_content W (request_of W a b)) as [text|e]; [|reflexivity].
  destruct (json_loads W text) as [ev|e]; [|reflexivity].
  destruct (document W "state" c) as [ref|e].
  - destruct (firestore_fault W _) as [e|]; [|reflexivity].
    destruct (isinstance e GoogleAPICallError_cls); reflexivity.
  - destruct (isinstance e GoogleAPICallError_cls); reflexivity.
Qed.

(** The writes of a completed run for a text id: one, or none when the
    path of the document is refused. *)
Lemma completed_store_writes (W : World) (a b : pyvalue) (i text : string) (ev : pyvalue)
  (st : State) :
  generate_content W (request_of W a b) = Returned text ->
  json_loads W text = Returned ev ->
  store_writes (snd (completed W a b (PyStr i) st)) =
  store_writes st ++ (if even_path "state" i then [write_for i ev] else []).
Proof.
  intros Hgen Hjson. unfold completed. rewrite Hgen, Hjson, document_text.
  destruct (even_path "state" i).
  - fold (write_for i ev).
    destruct (firestore_fault W (write_for i ev)) as [e|]; [|reflexivity].
    destruct (isinstance e GoogleAPICallError_cls); reflexivity.
  - rewrite path_error_not_api. simpl. now rewrite app_nil_r.
Qed.

(* ===================================================================== *)
(** ** The definitions at work *)
(* ===================================================================== *)

Example isoformat_whole_second :
  isoformat {| year := 2025; month := 6; day := 1;
               hour := 10; minute := 0; second := 0; microsecond := 0 |}
  = "2025-06-01T10:00:00".
Proof. vm_compute. reflexivity. Qed.

Example isoformat_with_microseconds :
  isoformat sample_clock = "2025-05-20T09:30:15.250000".
Proof. vm_compute. reflexivity. Qed.

Example iso8601_rejects_bad_dates :
  is_iso8601 "2025-02-29T10:00:00" = false /\ is_iso8601 "2025-6-1T10:00:00" = false /\
  is_iso8601 "2024-02-29T10:00:00.5Z" = true.
Proof. repeat split; vm_compute; reflexivity. Qed.

Example format_doubled_braces :
  py_format "a{{b}}c{x}d" [("x", "XY")] = Returned "a{b}cXYd".
Proof. vm_compute. reflexivity. Qed.

Example format_unknown_name :
  py_format "a{y}" [("x", "XY")] = Raised (KeyError "y").
Proof. vm_compute. reflexivity. Qed.

Example snapshot_as_dict :
  Document_to_dict (value payload_integer_id) =
  PyDict [("name", PyStr "projects/p/databases/(default)/documents/screenshots/s1");
          ("fields",
           PyDict [("image", PyDict [("stringValue", PyStr "gs://bucket/a.png")]);
                   ("type", PyDict [("stringValue", PyStr "image/png")]);
                   ("ID", PyDict [("integerValue", PyStr "7")])])].
Proof. vm_compute. reflexivity. Qed.

(** Line 130: the proto-plus object is refused, the protobuf message
    under it is rendered. *)
Example MessageToDict_two_faces :
  MessageToDict (ProtoPlus (value sample_payload)) = Raised descriptor_error /\
  MessageToDict (ProtoPlus Document_empty) = Raised descriptor_error /\
  MessageToDict (RawProtobuf Document_empty) = Returned (PyDict []).
Proof. repeat split; reflexivity. Qed.

(** The path of a document: one slash in the id is refused, two are not. *)
Example document_paths :
  document_path "state" "tx-1" = ["state"; "tx-1"] /\
  document_path "state" "a/b" = ["state"; "a"; "b"] /\
  document sample_world "state" (PyStr "tx-1")
    = Returned {| ref_collection := "state"; ref_id := "tx-1" |} /\
  document sample_world "state" (PyStr "a/b") = Raised path_error /\
  document sample_world "state" (PyStr "a/b/c")
    = Returned {| ref_collection := "state"; ref_id := "a/b/c" |} /\
  document sample_world "state" (PyInt 7)
    = Raised (TypeError "sequence item 1: expected str instance").
Proof. repeat split; vm_compute; reflexivity. Qed.

(** The scenario of the spec on the body after line 130: [state/tx-1]
    gets [processed] and [event] and keeps what the upload flow stored. *)
Example scenario_merged_document :
  let st' := snd (process_document sample_world sample_document_data uploaded_state) in
  exists doc : stored_document,
    store st' !! ("state", "tx-1") = Some doc /\
    doc !! "processed" = Some (PyBool true) /\
    doc !! "event" = Some (PyDict sample_event_data) /\
    doc !! "active" = Some (PyBool true) /\
    doc !! "image" = Some (PyStr "gs://bucket/a.png") /\
    doc !! "message" = None.
Proof. eexists. repeat split; vm_compute; reflexivity. Qed.

(** The same write without [merge] would have dropped the other fields. *)
Example replacement_drops_fields :
  let w := {| set_ref := {| ref_collection := "state"; ref_id := "tx-1" |};
              set_data := [("processed", PyBool true); ("event", PyDict sample_event_data)];
              set_merge := false |} in
  exists doc : stored_document,
    firestore_apply w (store uploaded_state) !! ("state", "tx-1") = Some doc /\
    doc !! "active" = None.
Proof. eexists. split; vm_compute; reflexivity. Qed.

(** The same world and the same stored document through the entry point:
    the run stops at line 130, nothing is asked and nothing is written. *)
Example entry_point_on_sample_world :
  let r := image_processor sample_world sample_cloud_event uploaded_state in
  fst r = Raised descriptor_error /\ model_calls (snd r) = [] /\ store_writes (snd r) = [] /\
  store (snd r) !! ("state", "tx-1") = Some uploaded_document.
Proof. repeat split; vm_compute; reflexivity. Qed.

(* ===================================================================== *)
(** ** Properties of the handler *)
(* ===================================================================== *)

(** C1.  What the handler does on every cloud event: it works on a new,
    empty [DocumentEventData], prints the three opening lines and stops at
    line 130, where [MessageToDict] refuses the proto-plus object.  The
    fields are never read and the line of the missing-fields branch is
    never printed; no call is made and nothing is written.  Handed the
    protobuf message instead, the rest of the body would have found no
    field, printed that line and returned. *)
Theorem image_processor_stops_at_line_130 (W : World) (cloud_event : CloudEvent)
  (st : State) :
  let r := image_processor W cloud_event st in
  fst r = Raised (AttributeError "Unknown field for Document: DESCRIPTOR") /\
  stdout (snd r) =
    stdout st ++
    [[Lit "Function triggered by change to: "; FmtStr (ce_source cloud_event)];
     [Lit (nl +:+ "New  value:")];
     [FmtMessage Document_empty]] /\
  model_calls (snd r) = model_calls st /\
  store_writes (snd r) = store_writes st /\
  store (snd r) = store st /\
  MessageToDict (RawProtobuf (value DocumentEventData_new)) = Returned (PyDict []) /\
  process_document W (PyDict []) st =
    (Returned tt,
     emit [[Lit "Missing required fields in document: "; FmtValue (PyDict [])]] st).
Proof.
  cbv zeta. unfold image_processor. rewrite process_payload_raises.
  repeat split; reflexivity.
Qed.

(** C2.  On a snapshot in which one of [image], [type], [ID] is absent or
    is the empty string, the handler does not print the line about the
    missing fields and does not return normally: it stops at line 130
    with the exception of [MessageToDict], after the three opening lines,
    with no call and no write.  The body after line 130, on the dict of
    that snapshot, prints the line and returns with no call and no
    write. *)
Theorem missing_field_stops_at_line_130 (W : World) (cloud_event : CloudEvent)
  (firestore_payload : DocumentEventData) (st : State) :
  field_missing (value firestore_payload) "image" \/
  field_missing (value firestore_payload) "type" \/
  field_missing (value firestore_payload) "ID" ->
  let r := process_payload W cloud_event firestore_payload st in
  let document_data := Document_to_dict (value firestore_payload) in
  (fst r = Raised (AttributeError "Unknown field for Document: DESCRIPTOR") /\
   stdout (snd r) = stdout st ++ preamble cloud_event firestore_payload /\
   model_calls (snd r) = model_calls st /\
   store_writes (snd r) = store_writes st /\
   store (snd r) = store st) /\
  process_document W document_data st =
    (Returned tt,
     emit [[Lit "Missing required fields in document: "; FmtValue document_data]] st).
Proof.
  intros H. cbv zeta. rewrite process_payload_raises.
  split; [repeat split; reflexivity|].
  now apply process_document_missing.
Qed.

(** C9.  On the dict of a snapshot the three reads give the text of a
    [StringValue] and [None] in every other case, so the body after line
    130 treats a required field of another type as it treats an absent
    one and skips.  The handler itself does not get there: on such a
    snapshot too it stops at line 130 and prints no line about missing
    fields. *)
Theorem non_string_field_stops_at_line_130 (W : World) (cloud_event : CloudEvent)
  (firestore_payload : DocumentEventData) (st : State) (name : string) (v : Value) :
  name = "image" \/ name = "type" \/ name = "ID" ->
  assoc_get name (doc_fields (value firestore_payload)) = Some v ->
  is_string_value v = false ->
  let document_data := Document_to_dict (value firestore_payload) in
  (forall d n, string_field (Document_to_dict d) n =
               Returned (match assoc_get n (doc_fields d) with
                         | Some (StringValue s) => PyStr s
                         | _ => PyNone
                         end)) /\
  string_field document_data name = Returned PyNone /\
  process_document W document_data st = (Returned tt, emit [missing_line document_data] st) /\
  process_payload W cloud_event firestore_payload st =
    (Raised (AttributeError "Unknown field for Document: DESCRIPTOR"),
     emit (preamble cloud_event firestore_payload) st).
Proof.
  intros Hname Hv Hns. cbv zeta.
  assert (Hnone : string_field (Document_to_dict (value firestore_payload)) name
                  = Returned PyNone).
  { rewrite string_field_snapshot, Hv. destruct v; try reflexivity; discriminate. }
  split; [exact string_field_snapshot|].
  split; [exact Hnone|].
  split; [|apply process_payload_raises].
  destruct (string_field_total (value firestore_payload) "image") as [a Ha].
  destruct (string_field_total (value firestore_payload) "type") as [b Hb].
  destruct (string_field_total (value firestore_payload) "ID") as [c Hc].
  apply (process_document_skip W _ st a b c); auto.
  apply py_all_false.
  destruct Hname as [->|[->| ->]]; [left | right; left | right; right].
  + rewrite Hnone in Ha. now inversion Ha.
  + rewrite Hnone in Hb. now inversion Hb.
  + rewrite Hnone in Hc. now inversion Hc.
Qed.

(** C10.  The region of the model client is the value of [LOCATION] in the
    environment, and ["europe-west1"] when the variable is unset or empty;
    every call the handler makes to the model goes through that client. *)
Theorem location_selects_region (W : World) (cloud_event : CloudEvent)
  (firestore_payload : DocumentEventData) (st : State) :
  location (client (environ W)) =
    match environ W !! "LOCATION" with
    | None => "europe-west1"
    | Some v => if String.eqb v EmptyString then "europe-west1" else v
    end /\
  exists calls,
    model_calls (snd (process_payload W cloud_event firestore_payload st)) =
      model_calls st ++ calls /\
    Forall (fun c => call_client c = client (environ W)) calls.
Proof.
  split.
  - unfold client, LOCATION, environ_get; simpl.
    destruct (environ W !! "LOCATION") as [v|]; simpl; [|reflexivity].
    now rewrite orb_false_r.
  - rewrite process_payload_raises. exists []. split; [simpl; now rewrite app_nil_r | constructor].
Qed.


(** The same two facts for the body after line 130, on every value of
    [document_data]: every write it sends asks for a merge, and a document
    that is in the store keeps every field other than [processed] and
    [event]. *)
Lemma process_document_write_is_merge (W : World) (document_data : pyvalue) (st : State)
  (key : string * string) (old : stored_document) :
  store st !! key = Some old ->
  let st' := snd (process_document W document_data st) in
  (exists writes,
      store_writes st' = store_writes st ++ writes /\
      Forall (fun c => set_merge c = true) writes) /\
  (exists new,
      store st' !! key = Some new /\
      forall k : string, k <> "processed" -> k <> "event" -> new !! k = old !! k).
Proof.
  intros Hold. cbv zeta.
  assert (Hnone : forall s : State, store s = store st -> store_writes s = store_writes st ->
            (exists writes, store_writes s = store_writes st ++ writes /\
                            Forall (fun c => set_merge c = true) writes) /\
            (exists new, store s !! key = Some new /\
               forall k : string, k <> "processed" -> k <> "event" -> new !! k = old !! k)).
  { intros s Hs Hw. split.
    - exists []. rewrite Hw. split; [now rewrite app_nil_r | constructor].
    - exists old. rewrite Hs. split; [exact Hold | reflexivity]. }
  destruct (string_field document_data "image") as [a|e] eqn:Ha.
  2: { rewrite (process_document_unreadable W _ st e) by (now left). now apply Hnone. }
  destruct (string_field document_data "type") as [b|e] eqn:Hb.
  2: { rewrite (process_document_unreadable W _ st e) by (right; left; eauto).
       now apply Hnone. }
  destruct (string_field document_data "ID") as [c|e] eqn:Hc.
  2: { rewrite (process_document_unreadable W _ st e) by (right; right; eauto 6).
       now apply Hnone. }
  destruct (py_all [a; b; c]) eqn:Hall.
  2: { rewrite (process_document_skip W _ st a b c Ha Hb Hc Hall). now apply Hnone. }
  rewrite (process_document_checked W _ st a b c Ha Hb Hc Hall). unfold completed.
  destruct (generate_content W (request_of W a b)) as [text|e]; [|now apply Hnone].
  destruct (json_loads W text) as [ev|e]; [|now apply Hnone].
  destruct (document W "state" c) as [ref|e].
  2: { destruct (isinstance e GoogleAPICallError_cls); now apply Hnone. }
  set (w := {| set_ref := ref; set_data := [("processed", PyBool true); ("event", ev)];
               set_merge := true |}).
  assert (Hw : Forall (fun c => set_merge c = true) [w]) by (repeat constructor).
  destruct (firestore_fault W w) as [e|].
  - destruct (isinstance e GoogleAPICallError_cls);
      (split; [exists [w]; split; [reflexivity | exact Hw]|]);
      exists old; split; try exact Hold; reflexivity.
  - split; [exists [w]; split; [reflexivity | exact Hw]|].
    destruct (firestore_apply_frame w (store st) key old eq_refl Hold)
      as (new & Hnew & Hframe).
    exists new. split; [exact Hnew|].
    intros k Hp He. apply Hframe. simpl.
    intros Hin. repeat (apply elem_of_cons in Hin as [Hin|Hin]; [congruence|]).
    now apply elem_of_nil in Hin.
Qed.

(** *** The body after line 130 on three texts

    The remaining properties are about [process_document], the body of the
    handler after [document_data] is bound, on a value of [document_data]
    whose three reads give text.  No run of the handler gets there, since
    line 130 raises; they say what lines 132 to 171 do. *)
Section CompletedRun.

Context (W : World) (document_data : pyvalue) (st : State)
  (gcs_url mime document_id : string).
Hypothesis Himage : text_field document_data "image" gcs_url.
Hypothesis Htype : text_field document_data "type" mime.
Hypothesis Hid : text_field document_data "ID" document_id.

Lemma run_completed :
  process_document W document_data st =
  completed W (PyStr gcs_url) (PyStr mime) (PyStr document_id) st.
Proof.
  apply process_document_checked; [apply Himage | apply Htype | apply Hid |].
  apply py_all_text; [apply Himage | apply Htype | apply Hid].
Qed.

(** The request is recorded whatever the world answers. *)
Lemma run_model_calls :
  model_calls (snd (process_document W document_data st)) =
  model_calls st ++ [request_for W gcs_url mime].
Proof. rewrite run_completed. apply completed_model_calls. Qed.

(** The write is recorded whatever the store answers, unless the path of
    the document is refused. *)
Lemma run_store_writes (text : string) (event_data : pyvalue) :
  generate_content W (request_for W gcs_url mime) = Returned text ->
  json_loads W text = Returned event_data ->
  store_writes (snd (process_document W document_data st)) =
  store_writes st ++
  (if even_path "state" document_id then [write_for document_id event_data] else []).
Proof.
  intros Hgen Hjson. rewrite run_completed.
  exact (completed_store_writes W _ _ document_id text event_data st Hgen Hjson).
Qed.

(** C3.  When the model answers and its text decodes to [event_data], the
    body sends one write, or none when the client refuses the path of the
    document: a merge into [state/<ID>] of the dict with the two keys
    [processed] (true) and [event] (the decoded value) and no other key; in
    particular none of [error], [active], [message], [image], [ID],
    [timestamp]. *)
Theorem write_is_processed_and_event (text : string) (event_data : pyvalue) :
  generate_content W (request_for W gcs_url mime) = Returned text ->
  json_loads W text = Returned event_data ->
  exists writes : list SetCall,
    store_writes (snd (process_document W document_data st)) = store_writes st ++ writes /\
    writes =
      (if even_path "state" document_id
       then [{| set_ref := {| ref_collection := "state"; ref_id := document_id |};
                set_data := [("processed", PyBool true); ("event", event_data)];
                set_merge := true |}]
       else []) /\
    Forall (fun c =>
              set_ref c = {| ref_collection := "state"; ref_id := document_id |} /\
              set_merge c = true /\
              set_data c = [("processed", PyBool true); ("event", event_data)] /\
              forall k : string,
                k ∈ ["error"; "active"; "message"; "image"; "ID"; "timestamp"] ->
                assoc_get k (set_data c) = None) writes.
Proof.
  intros Hgen Hjson. eexists. split; [exact (run_store_writes text event_data Hgen Hjson)|].
  split; [reflexivity|].
  destruct (even_path "state" document_id); constructor; [|constructor].
  repeat (split; [reflexivity|]).
  intros k Hk.
  repeat (apply elem_of_cons in Hk as [->|Hk]; [reflexivity|]).
  now apply elem_of_nil in Hk.
Qed.

(** C5.  When the write is sent and the store raises [e] on it, the body
    returns normally, after printing the error, exactly when [e] is an
    instance of [GoogleAPICallError]; any other exception leaves it. *)
Theorem only_api_error_is_caught (text : string) (event_data : pyvalue) (e : exception) :
  generate_content W (request_for W gcs_url mime) = Returned text ->
  json_loads W text = Returned event_data ->
  even_path "state" document_id = true ->
  firestore_fault W (write_for document_id event_data) = Some e ->
  let r := process_document W document_data st in
  fst r = (if isinstance e "GoogleAPICallError" then Returned tt else Raised e) /\
  stdout (snd r) =
    stdout st ++
    [[Lit "Raw Gemini Response: "; FmtStr text]; [FmtValue event_data]] ++
    (if isinstance e "GoogleAPICallError"
     then [[Lit "Error writing to Firestore: "; FmtException e]]
     else []) /\
  store_writes (snd r) = store_writes st ++ [write_for document_id event_data].
Proof.
  intros Hgen Hjson Hpath Hfault. cbv zeta.
  rewrite run_completed. unfold completed. fold (request_for W gcs_url mime).
  rewrite Hgen, Hjson, document_text, Hpath. fold (write_for document_id event_data).
  rewrite Hfault. change GoogleAPICallError_cls with "GoogleAPICallError".
  destruct (isinstance e "GoogleAPICallError"); repeat split; try reflexivity;
    simpl; rewrite <- ?app_assoc; reflexivity.
Qed.

(** C6.  When decoding the text of the answer raises, the exception leaves
    the body, whatever its class, and nothing is written: no write is sent
    and the store is as it was. *)
Theorem decode_failure_propagates (text : string) (e : exception) :
  generate_content W (request_for W gcs_url mime) = Returned text ->
  json_loads W text = Raised e ->
  let r := process_document W document_data st in
  fst r = Raised e /\
  store_writes (snd r) = store_writes st /\
  store (snd r) = store st.
Proof.
  intros Hgen Hjson. cbv zeta.
  rewrite run_completed. unfold completed. fold (request_for W gcs_url mime).
  rewrite Hgen, Hjson. repeat split; reflexivity.
Qed.

(** C7.  The body sends the model one request whose text is the prompt
    template formatted with the ISO rendering of the wall clock: the text
    starts with the first words of the template, goes on with that
    rendering, and the rendering is a valid ISO 8601 date and time. *)
Theorem prompt_carries_iso_timestamp :
  valid_datetime (clock W) ->
  exists (c : GenerateContentCall) (prompt tail : string),
    model_calls (snd (process_document W document_data st)) = model_calls st ++ [c] /\
    call_contents c =
      [ContentPart {| file_uri := PyStr gcs_url; mime_type := PyStr mime |};
       ContentText prompt] /\
    py_format PROMPT_TEMPLATE [("current_datetime", isoformat (clock W))] = Returned prompt /\
    prompt = " The current date and time is: " +:+ isoformat (clock W) +:+ tail /\
    contains prompt (isoformat (clock W)) /\
    is_iso8601 (isoformat (clock W)) = true.
Proof.
  intros Hclock.
  destruct (rendered_prompt_shape (isoformat (clock W))) as [tail Htail].
  exists (request_for W gcs_url mime), (rendered_prompt (isoformat (clock W))), tail.
  split; [exact run_model_calls|].
  split; [reflexivity|].
  split; [apply py_format_prompt|].
  split; [exact Htail|].
  split; [|now apply isoformat_is_iso8601].
  exists " The current date and time is: ", tail. exact Htail.
Qed.

(** C8.  When the text of the answer decodes to a JSON object, the [event]
    field of the dict of every write the body sends is that object, as
    decoded; one write is sent when the client accepts the path of the
    document. *)
Theorem event_field_is_parsed_object (text : string) (object : pydict) :
  generate_content W (request_for W gcs_url mime) = Returned text ->
  json_loads W text = Returned (PyDict object) ->
  exists writes : list SetCall,
    store_writes (snd (process_document W document_data st)) = store_writes st ++ writes /\
    length writes = (if even_path "state" document_id then 1 else 0)%nat /\
    Forall (fun c => py_get (PyDict (set_data c)) "event" PyNone = Returned (PyDict object))
           writes.
Proof.
  intros Hgen Hjson. eexists.
  split; [exact (run_store_writes text (PyDict object) Hgen Hjson)|].
  destruct (even_path "state" document_id); split; try reflexivity; repeat constructor.
Qed.

(** X1.  When the call to the model raises, the exception leaves the
    body, also when it is an instance of [GoogleAPICallError]: the call is
    outside the [try].  The request was made, the answer is not printed,
    no write is sent and the store is as it was. *)
Theorem model_failure_propagates (e : exception) :
  generate_content W (request_for W gcs_url mime) = Raised e ->
  let r := process_document W document_data st in
  fst r = Raised e /\
  stdout (snd r) = stdout st /\
  model_calls (snd r) = model_calls st ++ [request_for W gcs_url mime] /\
  store_writes (snd r) = store_writes st /\
  store (snd r) = store st.
Proof.
  intros Hgen. cbv zeta. rewrite run_completed. unfold completed.
  fold (request_for W gcs_url mime). rewrite Hgen. repeat split; reflexivity.
Qed.

(** X3.  When the model answers, the answer decodes, the client accepts
    the path of the document and the store accepts the write, the body
    returns normally after printing the answer, the decoded value and the
    line of success, and [state/<ID>] exists, created if it was not there,
    with [processed] set to true. *)
Theorem successful_run_marks_processed (text : string) (event_data : pyvalue) :
  generate_content W (request_for W gcs_url mime) = Returned text ->
  json_loads W text = Returned event_data ->
  even_path "state" document_id = true ->
  firestore_fault W (write_for document_id event_data) = None ->
  let r := process_document W document_data st in
  fst r = Returned tt /\
  stdout (snd r) =
    stdout st ++
    [[Lit "Raw Gemini Response: "; FmtStr text];
     [FmtValue event_data];
     [Lit "Successfully wrote data to Firestore document: "; FmtValue (PyStr document_id)]] /\
  exists doc : stored_document,
    store (snd r) !! ("state", document_id) = Some doc /\
    doc !! "processed" = Some (PyBool true).
Proof.
  intros Hgen Hjson Hpath Hfault. cbv zeta.
  rewrite run_completed. unfold completed. fold (request_for W gcs_url mime).
  rewrite Hgen, Hjson, document_text, Hpath. fold (write_for document_id event_data).
  rewrite Hfault.
  split; [reflexivity|]. split; [simpl; rewrite <- ?app_assoc; reflexivity|].
  eexists. split; [simpl; apply firestore_apply_write|].
  rewrite lookup_insert_ne by discriminate. apply lookup_insert_eq.
Qed.

(** X12.  When the id holds slashes that give the path of the document an
    odd number of elements (one slash, say), the client refuses the path
    with a [ValueError] inside the [try]; it is not the API error, so it
    leaves the body.  The model has been called and has answered by then;
    no write is sent. *)
Theorem odd_path_raises_after_model_call (text : string) (event_data : pyvalue) :
  generate_content W (request_for W gcs_url mime) = Returned text ->
  json_loads W text = Returned event_data ->
  even_path "state" document_id = false ->
  let r := process_document W document_data st in
  fst r = Raised (ValueError "A document must have an even number of path elements") /\
  model_calls (snd r) = model_calls st ++ [request_for W gcs_url mime] /\
  stdout (snd r) =
    stdout st ++ [[Lit "Raw Gemini Response: "; FmtStr text]; [FmtValue event_data]] /\
  store_writes (snd r) = store_writes st /\
  store (snd r) = store st.
Proof.
  intros Hgen Hjson Hpath. cbv zeta.
  rewrite run_completed. unfold completed.
  fold (request_for W gcs_url mime).
  rewrite Hgen, Hjson, document_text, Hpath, path_error_not_api.
  repeat split; try reflexivity. simpl. rewrite <- ?app_assoc. reflexivity.
Qed.

End CompletedRun.

(* ===================================================================== *)
(** ** Further properties *)
(* ===================================================================== *)




(** X7.  On the dict of a snapshot, the body after line 130 calls the
    model exactly when the three fields of the snapshot hold text that is
    not empty; in every other case the list of calls is as it was. *)
Theorem model_called_iff_fields_present (W : World) (d : Document) (st : State) :
  let st' := snd (process_document W (Document_to_dict d) st) in
  ((exists u m i, field_text d "image" u /\ field_text d "type" m /\ field_text d "ID" i)
   <-> exists c, model_calls st' = model_calls st ++ [c]) /\
  (model_calls st' = model_calls st \/ exists c, model_calls st' = model_calls st ++ [c]).
Proof.
  cbv zeta.
  destruct (process_document_cases W d st) as [Hskip|(u & m & i & Hu & Hm & Hi & Hrun)].
  - rewrite Hskip. simpl. split; [|now left]. split.
    + intros (u & m & i & Hu & Hm & Hi).
      pose proof (run_model_calls W (Document_to_dict d) st u m i
                    (text_field_snapshot _ _ _ Hu) (text_field_snapshot _ _ _ Hm)
                    (text_field_snapshot _ _ _ Hi)) as H.
      rewrite Hskip in H. simpl in H. symmetry in H. now apply app_singleton_neq in H.
    + intros [c H]. symmetry in H. now apply app_singleton_neq in H.
  - rewrite Hrun, completed_model_calls.
    split; [|right; eauto]. split; [eauto|]. intros _. exists u, m, i. auto.
Qed.

(** X9.  On the dict of a snapshot, an exception leaves the body after
    line 130 only when the model call raised it, or the decoder raised it,
    or the client refused the path of the document, or the store raised
    it and it is no instance of [GoogleAPICallError]; the reads of the
    fields and the formatting of the prompt raise nothing. *)
Theorem raised_exception_origin (W : World) (d : Document) (st : State) (e : exception) :
  fst (process_document W (Document_to_dict d) st) = Raised e ->
  exists u m i,
    field_text d "image" u /\ field_text d "type" m /\ field_text d "ID" i /\
    (generate_content W (request_for W u m) = Raised e \/
     (exists text,
         generate_content W (request_for W u m) = Returned text /\
         (json_loads W text = Raised e \/
          exists event_data,
            json_loads W text = Returned event_data /\
            ((even_path "state" i = false /\
              e = ValueError "A document must have an even number of path elements") \/
             (even_path "state" i = true /\
              firestore_fault W (write_for i event_data) = Some e /\
              isinstance e "GoogleAPICallError" = false))))).
Proof.
  destruct (process_document_cases W d st) as [->|(u & m & i & Hu & Hm & Hi & ->)];
    [discriminate|].
  intros H. exists u, m, i. repeat (split; [assumption|]).
  unfold completed in H. fold (request_for W u m) in H.
  destruct (generate_content W (request_for W u m)) as [text|e1];
    [|left; simpl in H; congruence].
  right. exists text. split; [reflexivity|].
  destruct (json_loads W text) as [ev|e2]; [|left; simpl in H; congruence].
  right. exists ev. split; [reflexivity|].
  rewrite document_text in H.
  destruct (even_path "state" i).
  - right. split; [reflexivity|]. fold (write_for i ev) in H.
    destruct (firestore_fault W (write_for i ev)) as [e3|]; [|discriminate].
    change GoogleAPICallError_cls with "GoogleAPICallError" in H.
    destruct (isinstance e3 "GoogleAPICallError") eqn:Hinst; [discriminate|].
    simpl in H. injection H as ->. auto.
  - left. split; [reflexivity|]. rewrite path_error_not_api in H.
    simpl in H. now injection H as <-.
Qed.

(** X10.  The text of the clock in the prompt has a fixed width, 19
    characters on a whole second and 26 otherwise, and reading it back gives
    the date and the time of day of the clock. *)
Theorem timestamp_round_trip (d : datetime) :
  valid_datetime d ->
  iso8601_parse (isoformat d) =
    Some (year d, month d, day d, (hour d, minute d, second d)) /\
  String.length (isoformat d) = if microsecond d =? 0 then 19%nat else 26%nat.
Proof.
  intros Hvalid. split; [now apply iso8601_parse_isoformat|].
  destruct Hvalid as (Hy & Hmo & Hd & Hh & Hmi & Hs & Hus).
  pose proof (days_in_month_le_31 (year d) (month d)) as H31.
  unfold isoformat. rewrite !length_append.
  rewrite (proj2 (format_0d_digits 4 (year d) ltac:(lia) ltac:(simpl; lia))).
  rewrite (proj2 (format_0d_digits 2 (month d) ltac:(lia) ltac:(simpl; lia))).
  rewrite (proj2 (format_0d_digits 2 (day d) ltac:(lia) ltac:(simpl; lia))).
  rewrite (proj2 (format_0d_digits 2 (hour d) ltac:(lia) ltac:(simpl; lia))).
  rewrite (proj2 (format_0d_digits 2 (minute d) ltac:(lia) ltac:(simpl; lia))).
  rewrite (proj2 (format_0d_digits 2 (second d) ltac:(lia) ltac:(simpl; lia))).
  destruct (Z.eqb_spec (microsecond d) 0) as [_|Hne]; [reflexivity|].
  rewrite length_append.
  rewrite (proj2 (format_0d_digits 6 (microsecond d) ltac:(lia) ltac:(simpl; lia))).
  reflexivity.
Qed.

(* ===================================================================== *)
(** ** The properties at the sample worlds *)
(* ===================================================================== *)

Lemma sample_payload_fields :
  field_text (value sample_payload) "image" "gs://bucket/a.png" /\
  field_text (value sample_payload) "type" "image/png" /\
  field_text (value sample_payload) "ID" "tx-1".
Proof. repeat split; try reflexivity; discriminate. Qed.

Lemma sample_document_fields :
  text_field sample_document_data "image" "gs://bucket/a.png" /\
  text_field sample_document_data "type" "image/png" /\
  text_field sample_document_data "ID" "tx-1".
Proof. repeat split; try reflexivity; discriminate. Qed.

Lemma slash_document_fields :
  text_field document_data_slash_id "image" "gs://bucket/a.png" /\
  text_field document_data_slash_id "type" "image/png" /\
  text_field document_data_slash_id "ID" "a/b".
Proof. repeat split; try reflexivity; discriminate. Qed.

Lemma sample_response_decodes :
  sample_json_loads sample_response = Returned (PyDict sample_event_data).
Proof. vm_compute. reflexivity. Qed.

(** The snapshot without [ID]: the handler stops at line 130; the body
    after it would have skipped. *)
Lemma missing_field_stops_at_line_130_witness :
  field_missing (value payload_without_id) "ID" /\
  let r := process_payload sample_world sample_cloud_event payload_without_id initial_state in
  (fst r = Raised (AttributeError "Unknown field for Document: DESCRIPTOR") /\
   stdout (snd r) = stdout initial_state ++ preamble sample_cloud_event payload_without_id /\
   model_calls (snd r) = model_calls initial_state /\
   store_writes (snd r) = store_writes initial_state /\
   store (snd r) = store initial_state) /\
  process_document sample_world document_data_without_id initial_state =
    (Returned tt,
     emit [[Lit "Missing required fields in document: ";
            FmtValue document_data_without_id]] initial_state).
Proof.
  assert (H : field_missing (value payload_without_id) "ID") by (left; reflexivity).
  split; [exact H|].
  apply (missing_field_stops_at_line_130 sample_world sample_cloud_event payload_without_id
           initial_state).
  right; right; exact H.
Defined.

(** The snapshot whose [ID] is the integer 7. *)
Lemma non_string_field_stops_at_line_130_witness :
  assoc_get "ID" (doc_fields (value payload_integer_id)) = Some (IntegerValue 7) /\
  string_field document_data_integer_id "ID" = Returned PyNone /\
  process_document sample_world document_data_integer_id initial_state =
    (Returned tt, emit [missing_line document_data_integer_id] initial_state) /\
  process_payload sample_world sample_cloud_event payload_integer_id initial_state =
    (Raised (AttributeError "Unknown field for Document: DESCRIPTOR"),
     emit (preamble sample_cloud_event payload_integer_id) initial_state).
Proof.
  split; [reflexivity|].
  pose proof (non_string_field_stops_at_line_130 sample_world sample_cloud_event
                payload_integer_id initial_state "ID" (IntegerValue 7)) as H.
  destruct H as (_ & Hnone & Hskip & Hraise).
  - right; right; reflexivity.
  - reflexivity.
  - reflexivity.
  - repeat split; assumption.
Defined.

(** The scenario of the spec on the body after line 130: the write sent
    for [tx-1]. *)
Lemma write_is_processed_and_event_witness :
  even_path "state" "tx-1" = true /\
  exists writes : list SetCall,
    store_writes (snd (process_document sample_world sample_document_data initial_state)) =
      store_writes initial_state ++ writes /\
    writes =
      (if even_path "state" "tx-1"
       then [{| set_ref := {| ref_collection := "state"; ref_id := "tx-1" |};
                set_data := [("processed", PyBool true); ("event", PyDict sample_event_data)];
                set_merge := true |}]
       else []) /\
    Forall (fun c =>
              set_ref c = {| ref_collection := "state"; ref_id := "tx-1" |} /\
              set_merge c = true /\
              set_data c = [("processed", PyBool true); ("event", PyDict sample_event_data)] /\
              forall k : string,
                k ∈ ["error"; "active"; "message"; "image"; "ID"; "timestamp"] ->
                assoc_get k (set_data c) = None) writes.
Proof.
  split; [reflexivity|].
  destruct sample_document_fields as (Hu & Hm & Hi).
  apply (write_is_processed_and_event sample_world sample_document_data initial_state
           "gs://bucket/a.png" "image/png" "tx-1" Hu Hm Hi sample_response
           (PyDict sample_event_data)).
  - reflexivity.
  - exact sample_response_decodes.
Defined.


(** The store answers every write with [ServiceUnavailable], a subclass of
    [GoogleAPICallError]. *)
Lemma only_api_error_is_caught_witness :
  firestore_fault unavailable_world (write_for "tx-1" (PyDict sample_event_data)) =
    Some (ServiceUnavailable "503 unavailable") /\
  let r := process_document unavailable_world sample_document_data initial_state in
  fst r = Returned tt /\
  stdout (snd r) =
    [[Lit "Raw Gemini Response: "; FmtStr sample_response];
     [FmtValue (PyDict sample_event_data)];
     [Lit "Error writing to Firestore: ";
      FmtException (ServiceUnavailable "503 unavailable")]] /\
  store_writes (snd r) = [write_for "tx-1" (PyDict sample_event_data)].
Proof.
  split; [reflexivity|].
  destruct sample_document_fields as (Hu & Hm & Hi).
  exact (only_api_error_is_caught unavailable_world sample_document_data
           initial_state "gs://bucket/a.png" "image/png" "tx-1" Hu Hm Hi sample_response
           (PyDict sample_event_data) (ServiceUnavailable "503 unavailable")
           eq_refl sample_response_decodes eq_refl eq_refl).
Defined.

(** The model answers with a sentence instead of JSON. *)
Lemma decode_failure_propagates_witness :
  json_loads chatty_world "Sorry, I cannot read this image." =
    Raised (JSONDecodeError "Expecting value") /\
  let r := process_document chatty_world sample_document_data uploaded_state in
  fst r = Raised (JSONDecodeError "Expecting value") /\
  store_writes (snd r) = store_writes uploaded_state /\
  store (snd r) = store uploaded_state.
Proof.
  assert (H : json_loads chatty_world "Sorry, I cannot read this image." =
              Raised (JSONDecodeError "Expecting value")) by (vm_compute; reflexivity).
  split; [exact H|].
  destruct sample_document_fields as (Hu & Hm & Hi).
  exact (decode_failure_propagates chatty_world sample_document_data
           uploaded_state "gs://bucket/a.png" "image/png" "tx-1" Hu Hm Hi
           "Sorry, I cannot read this image." (JSONDecodeError "Expecting value")
           eq_refl H).
Defined.

Lemma sample_clock_valid : valid_datetime sample_clock.
Proof. unfold valid_datetime; cbn. lia. Qed.

(** The prompt of 20 May 2025, 09:30:15.25. *)
Lemma prompt_carries_iso_timestamp_witness :
  isoformat sample_clock = "2025-05-20T09:30:15.250000" /\
  exists (c : GenerateContentCall) (prompt tail : string),
    model_calls (snd (process_document sample_world sample_document_data initial_state)) =
      model_calls initial_state ++ [c] /\
    call_contents c =
      [ContentPart {| file_uri := PyStr "gs://bucket/a.png"; mime_type := PyStr "image/png" |};
       ContentText prompt] /\
    py_format PROMPT_TEMPLATE [("current_datetime", isoformat (clock sample_world))]
      = Returned prompt /\
    prompt = " The current date and time is: " +:+ isoformat (clock sample_world) +:+ tail /\
    contains prompt (isoformat (clock sample_world)) /\
    is_iso8601 (isoformat (clock sample_world)) = true.
Proof.
  split; [vm_compute; reflexivity|].
  destruct sample_document_fields as (Hu & Hm & Hi).
  exact (prompt_carries_iso_timestamp sample_world sample_document_data
           initial_state "gs://bucket/a.png" "image/png" "tx-1" Hu Hm Hi sample_clock_valid).
Defined.

(** The round trip of the spec's example. *)
Lemma event_field_is_parsed_object_witness :
  json_loads sample_world sample_response = Returned (PyDict sample_event_data) /\
  exists writes : list SetCall,
    store_writes (snd (process_document sample_world sample_document_data initial_state)) =
      store_writes initial_state ++ writes /\
    length writes = (if even_path "state" "tx-1" then 1 else 0)%nat /\
    Forall (fun c => py_get (PyDict (set_data c)) "event" PyNone
                     = Returned (PyDict sample_event_data)) writes.
Proof.
  split; [exact sample_response_decodes|].
  destruct sample_document_fields as (Hu & Hm & Hi).
  exact (event_field_is_parsed_object sample_world sample_document_data
           initial_state "gs://bucket/a.png" "image/png" "tx-1" Hu Hm Hi sample_response
           sample_event_data eq_refl sample_response_decodes).
Defined.

(* ===================================================================== *)
(** ** The further properties at the sample worlds *)
(* ===================================================================== *)

(** The model answers 429, a [GoogleAPICallError]: it is not caught. *)
Lemma model_failure_propagates_witness :
  isinstance (ResourceExhausted "429 quota exceeded") "GoogleAPICallError" = true /\
  let r := process_document exhausted_world sample_document_data uploaded_state in
  fst r = Raised (ResourceExhausted "429 quota exceeded") /\
  stdout (snd r) = stdout uploaded_state /\
  model_calls (snd r) =
    model_calls uploaded_state ++ [request_for exhausted_world "gs://bucket/a.png" "image/png"] /\
  store_writes (snd r) = store_writes uploaded_state /\
  store (snd r) = store uploaded_state.
Proof.
  split; [reflexivity|].
  destruct sample_document_fields as (Hu & Hm & Hi).
  exact (model_failure_propagates exhausted_world sample_document_data
           uploaded_state "gs://bucket/a.png" "image/png" "tx-1" Hu Hm Hi
           (ResourceExhausted "429 quota exceeded") eq_refl).
Defined.

(** The scenario of the spec on an empty store: [state/tx-1] is created. *)
Lemma successful_run_marks_processed_witness :
  store initial_state !! ("state", "tx-1") = None /\
  let r := process_document sample_world sample_document_data initial_state in
  fst r = Returned tt /\
  stdout (snd r) =
    stdout initial_state ++
    [[Lit "Raw Gemini Response: "; FmtStr sample_response];
     [FmtValue (PyDict sample_event_data)];
     [Lit "Successfully wrote data to Firestore document: "; FmtValue (PyStr "tx-1")]] /\
  exists doc : stored_document,
    store (snd r) !! ("state", "tx-1") = Some doc /\
    doc !! "processed" = Some (PyBool true).
Proof.
  split; [reflexivity|].
  destruct sample_document_fields as (Hu & Hm & Hi).
  exact (successful_run_marks_processed sample_world sample_document_data
           initial_state "gs://bucket/a.png" "image/png" "tx-1" Hu Hm Hi sample_response
           (PyDict sample_event_data) eq_refl sample_response_decodes eq_refl eq_refl).
Defined.

(** The id [a/b]: the path [state/a/b] has three elements. *)
Lemma odd_path_raises_after_model_call_witness :
  document_path "state" "a/b" = ["state"; "a"; "b"] /\
  let r := process_document sample_world document_data_slash_id uploaded_state in
  fst r = Raised (ValueError "A document must have an even number of path elements") /\
  model_calls (snd r) =
    model_calls uploaded_state ++ [request_for sample_world "gs://bucket/a.png" "image/png"] /\
  stdout (snd r) =
    stdout uploaded_state ++
    [[Lit "Raw Gemini Response: "; FmtStr sample_response];
     [FmtValue (PyDict sample_event_data)]] /\
  store_writes (snd r) = store_writes uploaded_state /\
  store (snd r) = store uploaded_state.
Proof.
  split; [reflexivity|].
  destruct slash_document_fields as (Hu & Hm & Hi).
  exact (odd_path_raises_after_model_call sample_world document_data_slash_id
           uploaded_state "gs://bucket/a.png" "image/png" "a/b" Hu Hm Hi sample_response
           (PyDict sample_event_data) eq_refl sample_response_decodes eq_refl).
Defined.



(** The exception of the body in the world that answers with a sentence
    comes from the decoder. *)
Lemma raised_exception_origin_witness :
  fst (process_document chatty_world (Document_to_dict (value sample_payload)) initial_state) =
    Raised (JSONDecodeError "Expecting value") /\
  exists u m i,
    field_text (value sample_payload) "image" u /\
    field_text (value sample_payload) "type" m /\
    field_text (value sample_payload) "ID" i /\
    (generate_content chatty_world (request_for chatty_world u m) =
       Raised (JSONDecodeError "Expecting value") \/
     (exists text,
         generate_content chatty_world (request_for chatty_world u m) = Returned text /\
         (json_loads chatty_world text = Raised (JSONDecodeError "Expecting value") \/
          exists event_data,
            json_loads chatty_world text = Returned event_data /\
            ((even_path "state" i = false /\
              JSONDecodeError "Expecting value" =
                ValueError "A document must have an even number of path elements") \/
             (even_path "state" i = true /\
              firestore_fault chatty_world (write_for i event_data) =
                Some (JSONDecodeError "Expecting value") /\
              isinstance (JSONDecodeError "Expecting value") "GoogleAPICallError" = false))))).
Proof.
  assert (H : fst (process_document chatty_world (Document_to_dict (value sample_payload))
                     initial_state) = Raised (JSONDecodeError "Expecting value"))
    by (vm_compute; reflexivity).
  split; [exact H|].
  exact (raised_exception_origin chatty_world (value sample_payload) initial_state
           (JSONDecodeError "Expecting value") H).
Defined.

(** 20 May 2025, 09:30:15.25: 26 characters. *)
Lemma timestamp_round_trip_witness :
  iso8601_parse (isoformat sample_clock) = Some (2025, 5, 20, (9, 30, 15)) /\
  String.length (isoformat sample_clock) = 26%nat.
Proof. exact (timestamp_round_trip sample_clock sample_clock_valid). Defined.
